(** * Emotion dataset server: a shallow embedding of [server.py]

    The four tools of [server.py] ([get_sample], [count_by_emotion],
    [search_text], [analyze_emotion_distribution]) and the lazy loader
    [_load_dataset] are embedded as functions in a state-and-exception
    monad over an explicit [world]: the module global [DATASET], the number
    of calls made to the external [load_dataset], and the number of random
    draws consumed.

    Conventions.
    - A Python [int] is a [Z]; a Python [str] is a [string] read as a
      sequence of code points below U+0100.
    - A Python [float] is an IEEE 754 binary64 value ([spec_float] at
      precision 53).
    - A [dict] is an association list in insertion order.
    - Every tool returns [json.dumps(value, indent=2)]; the embedding
      returns the [value] handed to [json.dumps]. *)

From Stdlib Require Import ZArith List String Ascii Bool Arith Lia.
From Stdlib Require Import Sorted Permutation DecimalString.
From Stdlib Require Import Floats.SpecFloat.
Import ListNotations.

Set Warnings "-register-all".

Local Open Scope string_scope.
Local Open Scope Z_scope.

(** ** Python strings *)

Module PyStr.

(** [str.lower] on code points below U+0100: the letters with a
    lowercase mapping are A-Z, U+00C0-U+00D6 and U+00D8-U+00DE, each
    mapped 32 places up. *)
Definition lower_char (c : ascii) : ascii :=
  let k := nat_of_ascii c in
  if ((65 <=? k) && (k <=? 90)
      || (192 <=? k) && (k <=? 222) && negb (k =? 215))%nat
  then ascii_of_nat (k + 32)
  else c.

Fixpoint lower (s : string) : string :=
  match s with
  | EmptyString => EmptyString
  | String c s' => String (lower_char c) (lower s')
  end.

(** [needle in hay] for two strings. *)
Fixpoint contains (needle hay : string) : bool :=
  String.prefix needle hay
  || match hay with
     | EmptyString => false
     | String _ hay' => contains needle hay'
     end.

Definition len (s : string) : Z := Z.of_nat (String.length s).

(** [str(k)] for an [int]. *)
Definition of_int (k : Z) : string := NilZero.string_of_int (Z.to_int k).

Section Strip.
(** The whitespace class used by the validation layer when it strips a
    string field ([str_strip_whitespace=True]). *)
Variable is_space : ascii -> bool.

Fixpoint lstrip_chars (cs : list ascii) : list ascii :=
  match cs with
  | [] => []
  | c :: cs' => if is_space c then lstrip_chars cs' else cs
  end.

Definition strip (s : string) : string :=
  string_of_list_ascii
    (rev (lstrip_chars (rev (lstrip_chars (list_ascii_of_string s))))).
End Strip.

(** The code points below U+0100 with the Unicode White_Space property. *)
Definition unicode_space (c : ascii) : bool :=
  let k := nat_of_ascii c in
  ((9 <=? k) && (k <=? 13) || (k =? 32) || (k =? 133) || (k =? 160))%nat.

End PyStr.

(** ** Exceptions and outcomes *)

Inductive exn : Type :=
| KeyError (key : string)          (* [str(e)] is the repr of the key *)
| IndexError (msg : string)
| ValueError (msg : string)
| ZeroDivisionError (msg : string)
| OverflowError (msg : string)
| LoadError (msg : string)         (* whatever [load_dataset] raised *)
| ValidationError (fields : list string)
    (* raised by an input model: the fields that failed, in field order *).

(** [str(e)] *)
Definition str_exn (e : exn) : string :=
  match e with
  | KeyError key => key
  | IndexError msg | ValueError msg | ZeroDivisionError msg
  | OverflowError msg | LoadError msg => msg
  | ValidationError fields => String.concat ", " fields
  end.

Inductive outcome (A : Type) : Type :=
| Returned (a : A)
| Raised (e : exn).
Arguments Returned {A} a.
Arguments Raised {A} e.

Definition obind {A B} (x : outcome A) (k : A -> outcome B) : outcome B :=
  match x with
  | Returned a => k a
  | Raised e => Raised e
  end.

(** ** Python floats (binary64) *)

Module PyFloat.

Definition prec : Z := 53.
Definition emax : Z := 1024.

Definition of_int (z : Z) : spec_float := binary_normalize prec emax z 0 false.

Definition mul : spec_float -> spec_float -> spec_float := SFmul prec emax.

(** The correctly rounded quotient of two positive integers. *)
Definition div_pos (s : bool) (a b : Z) : spec_float :=
  let '(m, e, l) := SFdiv_core_binary prec emax a 0 b 0 in
  binary_round_aux prec emax s m e l.

(** [a / b] for two [int]s. *)
Definition int_truediv (a b : Z) : outcome spec_float :=
  if b =? 0 then Raised (ZeroDivisionError "division by zero")
  else if a =? 0 then Returned (S754_zero (b <? 0))
  else
    match div_pos (xorb (a <? 0) (b <? 0)) (Z.abs a) (Z.abs b) with
    | S754_infinity _ =>
        Raised (OverflowError "integer division result too large for a float")
    | q => Returned q
    end.

(** [a / b] rounded to the nearest integer, ties to even ([0 <= a], [0 < b]). *)
Definition round_half_even (a b : Z) : Z :=
  let q := a / b in
  match 2 * (a mod b) ?= b with
  | Lt => q
  | Gt => q + 1
  | Eq => if Z.even q then q else q + 1
  end.

(** [round(x, ndigits)] for [0 <= ndigits]: the exact value of [x] is
    rounded half-to-even to [ndigits] decimal places, and that decimal is
    converted to the nearest float; [OverflowError] when it is beyond the
    largest float. *)
Definition round (x : spec_float) (ndigits : Z) : outcome spec_float :=
  match x with
  | S754_finite s m e =>
      let p := 10 ^ ndigits in
      let scaled :=
        if 0 <=? e then Zpos m * 2 ^ e * p
        else round_half_even (Zpos m * p) (2 ^ (- e)) in
      if scaled =? 0 then Returned (S754_zero s)
      else
        match div_pos s scaled p with
        | S754_infinity _ =>
            Raised (OverflowError "rounded value too large to represent")
        | r => Returned r
        end
  | _ => Returned x
  end.

End PyFloat.

(** ** JSON values *)

Inductive json : Type :=
| JInt (z : Z)
| JFloat (f : spec_float)
| JString (s : string)
| JArray (items : list json)
| JObject (fields : list (string * json)).

Fixpoint assoc {A} (key : string) (fields : list (string * A)) : option A :=
  match fields with
  | [] => None
  | (k, v) :: rest => if String.eqb k key then Some v else assoc key rest
  end.

Definition json_get (key : string) (j : json) : option json :=
  match j with
  | JObject fields => assoc key fields
  | _ => None
  end.

Definition json_int (j : option json) : Z :=
  match j with
  | Some (JInt z) => z
  | _ => 0
  end.

(** ** The dataset, the world and the monad *)

Record record : Type := { text : string; label : Z }.

(** The object returned by [load_dataset]: [oid] is the identity of the
    object (the index of the [load_dataset] call that built it). *)
Record table : Type := { oid : nat; rows : list record }.

Inductive load_result : Type :=
| Loaded (rs : list record)
| LoadFailed (msg : string).

(** What lies outside the program: the outcome of the k-th call of
    [load_dataset] and the k-th raw random draw, [randbelow(n)] at draw
    [pos] being [entropy pos mod n].  The generator starves no value: from
    any draw on, every value below [n] comes up within [patience pos n]
    draws.  (This is what makes the redraws of [random.sample] end.) *)
Record env : Type := {
  source : nat -> load_result;
  entropy : nat -> nat;
  patience : nat -> nat -> nat;
  fair : forall pos n r : nat,
    (r < n)%nat ->
    exists d, (d < patience pos n)%nat /\ (entropy (pos + d) mod n)%nat = r
}.

Record world : Type := {
  DATASET : option table;  (* the module global; [None] at start *)
  loads : nat;             (* calls of [load_dataset] made so far *)
  draws : nat              (* random draws consumed so far *)
}.

Definition init_world : world := {| DATASET := None; loads := 0; draws := 0 |}.

Definition M (A : Type) : Type := world -> outcome A * world.

Definition ret {A} (a : A) : M A := fun w => (Returned a, w).
Definition raise {A} (e : exn) : M A := fun w => (Raised e, w).
Definition bind {A B} (m : M A) (k : A -> M B) : M B :=
  fun w =>
    match m w with
    | (Returned a, w') => k a w'
    | (Raised e, w') => (Raised e, w')
    end.
Definition lift {A} (x : outcome A) : M A := fun w => (x, w).

(** [try: body except Exception as e: handler(e)] *)
Definition try_except {A} (body : M A) (handler : exn -> M A) : M A :=
  fun w =>
    match body w with
    | (Returned a, w') => (Returned a, w')
    | (Raised e, w') => handler e w'
    end.

Notation "x <- m ;; k" := (bind m (fun x => k))
  (at level 61, m at next level, right associativity).
Notation "x <~ m ;; k" := (obind m (fun x => k))
  (at level 61, m at next level, right associativity).

(** ** [_load_dataset] *)

Definition _load_dataset (E : env) : M table :=
  fun w =>
    match DATASET w with
    | Some dataset => (Returned dataset, w)
    | None =>
        match source E (loads w) with
        | Loaded rs =>
            let dataset := {| oid := loads w; rows := rs |} in
            (Returned dataset,
             {| DATASET := Some dataset; loads := S (loads w); draws := draws w |})
        | LoadFailed msg =>
            (Raised (LoadError msg),
             {| DATASET := None; loads := S (loads w); draws := draws w |})
        end
    end.

(** ** [EmotionType] and [EMOTION_LABELS] *)

Inductive EmotionType : Type := SADNESS | JOY | LOVE | ANGER | FEAR | SURPRISE.

(** The [str] value of a member. *)
Definition value (e : EmotionType) : string :=
  match e with
  | SADNESS => "sadness"
  | JOY => "joy"
  | LOVE => "love"
  | ANGER => "anger"
  | FEAR => "fear"
  | SURPRISE => "surprise"
  end.

Definition members : list EmotionType := [SADNESS; JOY; LOVE; ANGER; FEAR; SURPRISE].

Definition EMOTION_LABELS : list (Z * string) :=
  [(0, "sadness"); (1, "joy"); (2, "love"); (3, "anger"); (4, "fear"); (5, "surprise")].

(** [d[key]] for a dict with [int] keys. *)
Fixpoint getitem_int {A} (d : list (Z * A)) (key : Z) : outcome A :=
  match d with
  | [] => Raised (KeyError (PyStr.of_int key))
  | (k, v) :: rest => if k =? key then Returned v else getitem_int rest key
  end.

(** [d[idx]] for the dataset. *)
Definition dataset_getitem (dataset : table) (idx : nat) : outcome record :=
  match nth_error (rows dataset) idx with
  | Some item => Returned item
  | None => Raised (IndexError "index out of range")
  end.

Definition len_dataset (dataset : table) : Z := Z.of_nat (List.length (rows dataset)).

Definition error_payload (msg : string) : json := JObject [("error", JString msg)].

(** The entry built for a record whose label resolved to [emotion]. *)
Definition sample_entry (item : record) (emotion : string) : json :=
  JObject [("text", JString (text item));
           ("emotion", JString emotion);
           ("label_id", JInt (label item))].

(** ** Input models

    Each model validates its fields when it is built and raises
    [ValidationError] otherwise; the tools receive a built model. *)

Module GetSampleInput.
Record t : Type := { n : Z }.

(** [GetSampleInput(n=n)]: [ge=1], [le=100]. *)
Definition make (n : Z) : outcome t :=
  if (1 <=? n) && (n <=? 100) then Returned {| n := n |}
  else Raised (ValidationError ["n"]).
End GetSampleInput.

Module CountByEmotionInput.
Record t : Type := { emotion : EmotionType }.

(** The member of [EmotionType] whose value is [s], if any. *)
Fixpoint member_of (ms : list EmotionType) (s : string) : option EmotionType :=
  match ms with
  | [] => None
  | m :: rest => if String.eqb (value m) s then Some m else member_of rest s
  end.

(** [CountByEmotionInput(emotion=s)] *)
Definition make (s : string) : outcome t :=
  match member_of members s with
  | Some e => Returned {| emotion := e |}
  | None => Raised (ValidationError ["emotion"])
  end.
End CountByEmotionInput.

Module SearchTextInput.
Record t : Type := { query : string; limit : Z }.

Section Make.
Variable is_space : ascii -> bool.

(** [SearchTextInput(query=q, limit=l)]: the query is stripped, then
    [min_length=1], [max_length=200]; the limit has [ge=1], [le=100]. *)
Definition make (q : string) (l : Z) : outcome t :=
  let q' := PyStr.strip is_space q in
  let bad_query :=
    if (1 <=? PyStr.len q') && (PyStr.len q' <=? 200) then [] else ["query"] in
  let bad_limit :=
    if (1 <=? l) && (l <=? 100) then [] else ["limit"] in
  match (bad_query ++ bad_limit)%list with
  | [] => Returned {| query := q'; limit := l |}
  | fields => Raised (ValidationError fields)
  end.
End Make.
End SearchTextInput.

(** ** Tool 1: [get_sample] *)

(** [l[i] = v] *)
Fixpoint list_set {A} (l : list A) (i : nat) (v : A) : list A :=
  match l, i with
  | [], _ => []
  | _ :: l', O => v :: l'
  | x :: l', S i' => x :: list_set l' i' v
  end.

(** [random.sample] has two loops.  This is the one over a pool, taken when
    the population is at most [setsize]: for each of the [k] results,
    [j = randbelow(m)] picks [pool[j]] among the first [m] entries and the
    last of them moves into the vacancy.  The draw numbered [pos] is
    [entropy E pos]. *)
Fixpoint sample_loop (E : env) (pool : list nat) (m k pos : nat) : list nat :=
  match k with
  | O => []
  | S k' =>
      let j := (entropy E pos mod m)%nat in
      nth j pool O
        :: sample_loop E (list_set pool j (nth (m - 1) pool O)) (m - 1) k' (S pos)
  end.

(** [_ceil(_log(x, 4))]: the least [m] with [x <= 4 ^ m].  (The library
    takes the logarithm in floating point, which gives this exponent for
    every [x] below [4 ^ 24]; [x] is three times the sample size.) *)
Definition ceil_log4 (x : Z) : Z := (Z.log2_up x + 1) / 2.

(** [setsize = 21; if k > 5: setsize += 4 ** _ceil(_log(k * 3, 4))] *)
Definition setsize (k : Z) : Z :=
  if k >? 5 then 21 + 4 ^ ceil_log4 (k * 3) else 21.

(** [j = randbelow(n); while j in selected: j = randbelow(n)], from the draw
    numbered [pos]: the value drawn and the number of the next draw.  The
    loop is run for [fuel] draws at most. *)
Fixpoint draw_fresh (E : env) (n : nat) (selected : list nat) (fuel pos : nat)
    : option (nat * nat) :=
  match fuel with
  | O => None
  | S fuel' =>
      let j := (entropy E pos mod n)%nat in
      if existsb (Nat.eqb j) selected
      then draw_fresh E n selected fuel' (S pos)
      else Some (j, S pos)
  end.

(** The other loop of [random.sample], over the set of the positions
    selected so far, taken when the population is larger than [setsize]:
    each of the [k] results is drawn until it is a position not yet
    selected; [population[j]] is [j] for a range.  Each result is given the
    draws the environment promises to be enough. *)
Fixpoint reject_loop (E : env) (n k : nat) (selected : list nat) (pos : nat)
    : option (list nat * nat) :=
  match k with
  | O => Some ([], pos)
  | S k' =>
      match draw_fresh E n selected (patience E pos n) pos with
      | None => None
      | Some (j, pos') =>
          match reject_loop E n k' (j :: selected) pos' with
          | None => None
          | Some (result, pos'') => Some (j :: result, pos'')
          end
      end
  end.

(** [random.sample(range(total), k)].  The last branch is never taken: the
    redraws end within the environment's patience
    ([reject_loop_returns]). *)
Definition random_sample (E : env) (total k : Z) : M (list nat) :=
  fun w =>
    if (k <? 0) || (total <? k)
    then (Raised (ValueError "Sample larger than population or is negative"), w)
    else
      let size := Z.to_nat total in
      if total <=? setsize k then
        (Returned (sample_loop E (seq 0 size) size (Z.to_nat k) (draws w)),
         {| DATASET := DATASET w; loads := loads w;
            draws := (draws w + Z.to_nat k)%nat |})
      else
        match reject_loop E size (Z.to_nat k) [] (draws w) with
        | Some (result, pos) =>
            (Returned result,
             {| DATASET := DATASET w; loads := loads w; draws := pos |})
        | None => (Raised (ValueError "no unselected position was drawn"), w)
        end.

(** The loop [for idx in indices: ... samples.append(...)]. *)
Fixpoint collect_samples (dataset : table) (indices : list nat)
    (samples : list json) : outcome (list json) :=
  match indices with
  | [] => Returned samples
  | idx :: rest =>
      item <~ dataset_getitem dataset idx ;;
      emotion <~ getitem_int EMOTION_LABELS (label item) ;;
      collect_samples dataset rest (samples ++ [sample_entry item emotion])%list
  end.

Definition get_sample_body (E : env) (params : GetSampleInput.t) : M json :=
  dataset <- _load_dataset E ;;
  let total_size := len_dataset dataset in
  indices <- random_sample E total_size (Z.min (GetSampleInput.n params) total_size) ;;
  samples <- lift (collect_samples dataset indices []) ;;
  ret (JArray samples).

Definition get_sample (E : env) (params : GetSampleInput.t) : M json :=
  try_except (get_sample_body E params)
    (fun e => ret (error_payload ("Failed to get samples: " ++ str_exn e))).

(** ** Tool 2: [count_by_emotion] *)

(** The search [for lid, label_name in EMOTION_LABELS.items(): ... break];
    [None] when no name matches. *)
Fixpoint find_label_id (items : list (Z * string)) (emotion : string) : option Z :=
  match items with
  | [] => None
  | (lid, label_name) :: rest =>
      if String.eqb label_name emotion then Some lid
      else find_label_id rest emotion
  end.

(** [sum(1 for item in dataset if item["label"] == label_id)] *)
Definition count_label (dataset : table) (label_id : Z) : Z :=
  fold_left (fun acc item => if label item =? label_id then acc + 1 else acc)
    (rows dataset) 0.

(** [round((count / total * 100), 2) if total > 0 else 0] *)
Definition percentage (count total : Z) : outcome json :=
  if total >? 0 then
    ratio <~ PyFloat.int_truediv count total ;;
    rounded <~ PyFloat.round (PyFloat.mul ratio (PyFloat.of_int 100)) 2 ;;
    Returned (JFloat rounded)
  else Returned (JInt 0).

Definition count_by_emotion_body (E : env) (params : CountByEmotionInput.t) : M json :=
  let emotion := value (CountByEmotionInput.emotion params) in
  dataset <- _load_dataset E ;;
  match find_label_id EMOTION_LABELS emotion with
  | None => ret (error_payload ("Unknown emotion: " ++ emotion))
  | Some label_id =>
      let count := count_label dataset label_id in
      let total := len_dataset dataset in
      pct <- lift (percentage count total) ;;
      ret (JObject [("emotion", JString emotion);
                    ("count", JInt count);
                    ("total", JInt total);
                    ("percentage", pct)])
  end.

Definition count_by_emotion (E : env) (params : CountByEmotionInput.t) : M json :=
  try_except (count_by_emotion_body E params)
    (fun e => ret (error_payload ("Failed to count by emotion: " ++ str_exn e))).

(** ** Tool 3: [search_text] *)

(** The scan [for item in dataset: ...] with its [break]. *)
Fixpoint search_loop (query_lower : string) (limit : Z) (items : list record)
    (results : list json) : outcome (list json) :=
  match items with
  | [] => Returned results
  | item :: rest =>
      if PyStr.contains query_lower (PyStr.lower (text item)) then
        emotion <~ getitem_int EMOTION_LABELS (label item) ;;
        let results' := (results ++ [sample_entry item emotion])%list in
        if Z.of_nat (List.length results') >=? limit then Returned results'
        else search_loop query_lower limit rest results'
      else search_loop query_lower limit rest results
  end.

Definition search_text_body (E : env) (params : SearchTextInput.t) : M json :=
  dataset <- _load_dataset E ;;
  let query_lower := PyStr.lower (SearchTextInput.query params) in
  results <- lift (search_loop query_lower (SearchTextInput.limit params)
                     (rows dataset) []) ;;
  ret (JObject [("query", JString (SearchTextInput.query params));
                ("count", JInt (Z.of_nat (List.length results)));
                ("results", JArray results)]).

Definition search_text (E : env) (params : SearchTextInput.t) : M json :=
  try_except (search_text_body E params)
    (fun e => ret (error_payload ("Failed to search text: " ++ str_exn e))).

(** ** Tool 4: [analyze_emotion_distribution] *)

(** [d[key] = v] for a dict with [str] keys: an existing key keeps its place. *)
Fixpoint setitem (d : list (string * Z)) (key : string) (v : Z) : list (string * Z) :=
  match d with
  | [] => [(key, v)]
  | (k, x) :: rest =>
      if String.eqb k key then (k, v) :: rest else (k, x) :: setitem rest key v
  end.

(** [d[key]] for a dict with [str] keys. *)
Fixpoint getitem_str (d : list (string * Z)) (key : string) : outcome Z :=
  match d with
  | [] => Raised (KeyError ("'" ++ key ++ "'"))
  | (k, x) :: rest => if String.eqb k key then Returned x else getitem_str rest key
  end.

(** [{label: 0 for label in EMOTION_LABELS.values()}] *)
Definition zero_counts : list (string * Z) :=
  fold_left (fun d name => setitem d name 0) (map snd EMOTION_LABELS) [].

(** The scan [for item in dataset: ... emotion_counts[emotion_name] += 1]. *)
Fixpoint tally (items : list record) (emotion_counts : list (string * Z))
    : outcome (list (string * Z)) :=
  match items with
  | [] => Returned emotion_counts
  | item :: rest =>
      emotion_name <~ getitem_int EMOTION_LABELS (label item) ;;
      old <~ getitem_str emotion_counts emotion_name ;;
      tally rest (setitem emotion_counts emotion_name (old + 1))
  end.

(** The order of [(str, int)] tuples. *)
Definition item_le (a b : string * Z) : bool :=
  match String.compare (fst a) (fst b) with
  | Lt => true
  | Gt => false
  | Eq => snd a <=? snd b
  end.

Fixpoint insert_item (x : string * Z) (l : list (string * Z)) : list (string * Z) :=
  match l with
  | [] => [x]
  | y :: l' => if item_le x y then x :: l else y :: insert_item x l'
  end.

(** [sorted(items)], a stable sort. *)
Definition sorted (items : list (string * Z)) : list (string * Z) :=
  fold_right insert_item [] items.

Definition distribution_entry (emotion : string) (count : Z) (pct : json) : json :=
  JObject [("emotion", JString emotion); ("count", JInt count); ("percentage", pct)].

(** The loop [for emotion, count in sorted(...): distribution.append(...)]. *)
Fixpoint build_distribution (total : Z) (items : list (string * Z))
    (distribution : list json) : outcome (list json) :=
  match items with
  | [] => Returned distribution
  | (emotion, count) :: rest =>
      pct <~ percentage count total ;;
      build_distribution total rest
        (distribution ++ [distribution_entry emotion count pct])%list
  end.

Definition analyze_emotion_distribution_body (E : env) : M json :=
  dataset <- _load_dataset E ;;
  emotion_counts <- lift (tally (rows dataset) zero_counts) ;;
  let total := len_dataset dataset in
  distribution <- lift (build_distribution total (sorted emotion_counts) []) ;;
  ret (JObject [("total_samples", JInt total);
                ("distribution", JArray distribution)]).

Definition analyze_emotion_distribution (E : env) : M json :=
  try_except (analyze_emotion_distribution_body E)
    (fun e => ret (error_payload ("Failed to analyze distribution: " ++ str_exn e))).

(** ** Calls as a caller writes them

    [tool(Model(field=...))]: the model is built first, and the tool runs
    only when the model was built. *)

Definition call_get_sample (E : env) (n : Z) : M json :=
  params <- lift (GetSampleInput.make n) ;;
  get_sample E params.

Definition call_count_by_emotion (E : env) (emotion : string) : M json :=
  params <- lift (CountByEmotionInput.make emotion) ;;
  count_by_emotion E params.

Definition call_search_text (is_space : ascii -> bool) (E : env)
    (query : string) (limit : Z) : M json :=
  params <- lift (SearchTextInput.make is_space query limit) ;;
  search_text E params.

(** ** Vocabulary of the statements *)

(** A label is valid when it is a key of [EMOTION_LABELS]. *)
Definition valid_label (l : Z) : Prop := In l (map fst EMOTION_LABELS).

Definition valid_rows (rs : list record) : Prop :=
  Forall (fun r => valid_label (label r)) rs.

(** The emotion name a label resolves to, if any. *)
Definition resolve (l : Z) : option string :=
  match getitem_int EMOTION_LABELS l with
  | Returned name => Some name
  | Raised _ => None
  end.

(** Does the record resolve to the emotion [name]? *)
Definition resolves_to (name : string) (r : record) : bool :=
  match resolve (label r) with
  | Some name' => String.eqb name' name
  | None => false
  end.

(** Does the text of the record contain the query, cases ignored? *)
Definition matches (query : string) (r : record) : bool :=
  PyStr.contains (PyStr.lower query) (PyStr.lower (text r)).

Definition count_of (name : string) (rs : list record) : Z :=
  Z.of_nat (List.length (filter (resolves_to name) rs)).

(** The result of [k] successive calls of [_load_dataset]. *)
Fixpoint load_calls (E : env) (k : nat) (w : world) : list (outcome table) * world :=
  match k with
  | O => ([], w)
  | S k' =>
      let '(r, w') := _load_dataset E w in
      let '(rs, w'') := load_calls E k' w' in
      (r :: rs, w'')
  end.

(** How many of the first [m] calls of [load_dataset] succeeded. *)
Fixpoint successful_loads (E : env) (m : nat) : nat :=
  match m with
  | O => O
  | S m' =>
      (match source E m' with Loaded _ => 1 | LoadFailed _ => 0 end
       + successful_loads E m')%nat
  end.

(** The specification's tiny dataset. *)
Definition tiny_rows : list record :=
  [ {| text := "i am so happy"; label := 1 |};
    {| text := "i feel sad"; label := 0 |};
    {| text := "i love this"; label := 2 |};
    {| text := "i am happy again"; label := 1 |} ].

(** The generator whose draws count up from 0 starves no value: among
    [n] successive numbers every value below [n] is a remainder. *)
Definition counter_fair (pos n r : nat) :
  (r < n)%nat -> exists d, (d < n)%nat /\ ((pos + d) mod n)%nat = r.
Proof.
  intros Hr. pose proof (Nat.div_mod_eq pos n) as Hpos.
  pose proof (Nat.mod_upper_bound pos n ltac:(lia)) as Hm.
  destruct (Nat.le_gt_cases (pos mod n) r) as [Hle | Hgt].
  - exists (r - pos mod n)%nat. split; [lia |].
    symmetry. apply (Nat.mod_unique _ _ (pos / n)); lia.
  - exists (r + n - pos mod n)%nat. split; [lia |].
    symmetry. apply (Nat.mod_unique _ _ (S (pos / n))); lia.
Qed.

(** A generator whose first draws are scripted and whose later draws count
    up; it starves no value either. *)
Definition scripted_fair (script : list nat) (pos n r : nat) :
  (r < n)%nat ->
  exists d, (d < List.length script + n)%nat
            /\ (nth (pos + d) script (pos + d) mod n)%nat = r.
Proof.
  intros Hr.
  destruct (counter_fair (Nat.max pos (List.length script)) n r Hr) as (d & Hd & Hmod).
  exists (Nat.max pos (List.length script) - pos + d)%nat. split; [lia |].
  replace (pos + (Nat.max pos (List.length script) - pos + d))%nat
    with (Nat.max pos (List.length script) + d)%nat by lia.
  rewrite nth_overflow by lia. exact Hmod.
Qed.

Definition scripted_env (src : nat -> load_result) (script : list nat) : env :=
  {| source := src;
     entropy := fun k => nth k script k;
     patience := fun _ n => (List.length script + n)%nat;
     fair := scripted_fair script |}.

Definition tiny_env : env :=
  {| source := fun _ => Loaded tiny_rows; entropy := fun k => k;
     patience := fun _ n => n; fair := counter_fair |}.

(** A float that is zero or finite with a mantissa below [2 ^ k] and an
    exponent of at most [eb]. *)
Definition bounded_float (k eb : Z) (x : spec_float) : Prop :=
  match x with
  | S754_zero _ => True
  | S754_finite _ m e => Zpos m < 2 ^ k /\ e <= eb
  | _ => False
  end.

(** [pct] is what [round((count / total * 100), 2) if total > 0 else 0]
    evaluates to. *)
Definition is_percentage (count total : Z) (pct : json) : Prop :=
  if total >? 0 then
    exists ratio rounded,
      PyFloat.int_truediv count total = Returned ratio
      /\ PyFloat.round (PyFloat.mul ratio (PyFloat.of_int 100)) 2 = Returned rounded
      /\ pct = JFloat rounded
  else pct = JInt 0.

(** The emotion name of a valid label (empty for any other label). *)
Definition emotion_of (l : Z) : string :=
  match resolve l with
  | Some name => name
  | None => ""
  end.

(** The entry [{text, emotion, label_id}] of a record. *)
Definition entry (r : record) : json := sample_entry r (emotion_of (label r)).


Definition sum_Z (l : list Z) : Z := fold_right Z.add 0 l.

(** Among the calls of [load_dataset] made so far, none succeeded while
    the cache is empty and exactly one once it is populated. *)
Definition at_most_one_load (E : env) (w : world) : Prop :=
  match DATASET w with
  | None => successful_loads E (loads w) = 0%nat
  | Some _ => successful_loads E (loads w) = 1%nat
  end.

(** The table and the world after the first load of the tiny dataset. *)
Definition tiny_table : table := {| oid := 0; rows := tiny_rows |}.

Definition tiny_loaded : world :=
  {| DATASET := Some tiny_table; loads := 1; draws := 0 |}.

(** The first [m] entries of the pool are distinct indices below [bound]. *)
Definition pool_ok (bound : nat) (pool : list nat) (m : nat) : Prop :=
  (m <= List.length pool)%nat
  /\ (forall i, (i < m)%nat -> (nth i pool O < bound)%nat)
  /\ (forall i i', (i < m)%nat -> (i' < m)%nat -> nth i pool O = nth i' pool O -> i = i').

(** [j] is the entry built from the record stored at index [idx]. *)
Definition drawn (dataset : table) (idx : nat) (j : json) : Prop :=
  exists r name,
    nth_error (rows dataset) idx = Some r
    /\ getitem_int EMOTION_LABELS (label r) = Returned name
    /\ j = JObject [("text", JString (text r));
                    ("emotion", JString name);
                    ("label_id", JInt (label r))].

(** [s * k] for a string and a count. *)
Fixpoint str_mul (s : string) (k : nat) : string :=
  match k with
  | O => ""
  | S k' => s ++ str_mul s k'
  end.

(** The six accepted emotion names. *)
Definition emotion_names : list string := map value members.

(** A source that is never reachable. *)
Definition offline_env : env :=
  {| source := fun _ => LoadFailed "offline"; entropy := fun k => k;
     patience := fun _ n => n; fair := counter_fair |}.

(** The successful result of [count_by_emotion]. *)
Definition count_payload (e : EmotionType) (dataset : table) (pct : json) : json :=
  JObject [("emotion", JString (value e));
           ("count", JInt (count_of (value e) (rows dataset)));
           ("total", JInt (len_dataset dataset));
           ("percentage", pct)].

(** The records [search_text] returns: the first [limit] matches. *)
Definition hits (query : string) (limit : Z) (rs : list record) : list record :=
  firstn (Z.to_nat limit) (filter (matches query) rs).

(** The successful result of [search_text]. *)
Definition search_payload (query : string) (found : list record) : json :=
  JObject [("query", JString query);
           ("count", JInt (Z.of_nat (List.length found)));
           ("results", JArray (map entry found))].

(** A dataset with two records whose labels are no keys of the label
    mapping, and the world after its load. *)
Definition odd_rows : list record :=
  [ {| text := "so happy"; label := 1 |};
    {| text := "odd one"; label := 7 |};
    {| text := "Happy again"; label := 9 |} ].

Definition odd_env : env :=
  {| source := fun _ => Loaded odd_rows; entropy := fun k => k;
     patience := fun _ n => n; fair := counter_fair |}.

Definition odd_table : table := {| oid := 0; rows := odd_rows |}.

Definition odd_loaded : world :=
  {| DATASET := Some odd_table; loads := 1; draws := 0 |}.

(** Does the label of the record resolve to an emotion name? *)
Definition has_valid_label (r : record) : bool :=
  match resolve (label r) with
  | Some _ => true
  | None => false
  end.

(** The head of the list, if any, is no whitespace. *)
Definition clean (is_space : ascii -> bool) (cs : list ascii) : Prop :=
  match cs with
  | [] => True
  | c :: _ => is_space c = false
  end.

(** The entry of the record stored at an index. *)
Definition entry_at (rs : list record) (idx : nat) : json :=
  match nth_error rs idx with
  | Some r => entry r
  | None => JArray []
  end.

(** ** The test script [test_tools.py]

    The script prints to the standard output and returns a flag; its
    functions are embedded over the world and the lines printed so far.
    A printed line is kept as what was printed: a text, the result a tool
    returned, or one of the script's fixed messages with the values it
    interpolates.  The standard output accepts every line: a [print]
    appends its line and does not raise, and the run is not interrupted. *)

Inductive printed : Type :=
| Text (s : string)                   (* [print(s)] *)
| Result (j : json)                   (* [print(result)] *)
| Passed                              (* the line that reports a passed test *)
| Failed (msg : string)               (* the line that reports a failure, with [str(e)] *)
| Heading (emotion : string)          (* the line [emotion.upper()] and a colon *)
| ErrorTesting (emotion msg : string) (* the line "Error testing ..." *).

Definition newline : string := String "010"%char "".

(** ["=" * 70] *)
Definition rule : string := str_mul "=" 70.

(** The three lines printed before a test. *)
Definition banner (title : string) : list printed :=
  [Text (newline ++ rule); Text title; Text rule].

(** One test of [test_all_tools]: the banner, then
    [try: result = await call; print(result); print(passed)]
    [except Exception as e: print(failed); return False]. *)
Definition test_block (title : string) (call : M json) (w : world)
    (out : list printed) : bool * world * list printed :=
  let out := (out ++ banner title)%list in
  match call w with
  | (Returned result, w') => (true, w', (out ++ [Result result; Passed])%list)
  | (Raised e, w') => (false, w', (out ++ [Failed (str_exn e)])%list)
  end.

Definition test_all_tools (is_space : ascii -> bool) (E : env) (w : world)
    (out : list printed) : bool * world * list printed :=
  let out := (out ++ [Text rule; Text "Testing Emotion MCP Server"; Text rule])%list in
  let '(ok, w, out) := test_block "get_sample(n=3)" (call_get_sample E 3) w out in
  if negb ok then (false, w, out) else
  let '(ok, w, out) :=
    test_block "count_by_emotion(emotion='joy')" (call_count_by_emotion E "joy") w out in
  if negb ok then (false, w, out) else
  let '(ok, w, out) :=
    test_block "search_text(query='happy', limit=10)"
      (call_search_text is_space E "happy" 10) w out in
  if negb ok then (false, w, out) else
  let '(ok, w, out) :=
    test_block "analyze_emotion_distribution()" (analyze_emotion_distribution E) w out in
  if negb ok then (false, w, out) else
  (true, w, (out ++ [Text (newline ++ rule); Text "All tests passed!"; Text rule])%list).

(** The loop of [test_individual_emotions]. *)
Fixpoint emotions_loop (E : env) (emotions : list string) (w : world)
    (out : list printed) : world * list printed :=
  match emotions with
  | [] => (w, out)
  | emotion :: rest =>
      match call_count_by_emotion E emotion w with
      | (Returned result, w') =>
          emotions_loop E rest w' (out ++ [Heading emotion; Result result])%list
      | (Raised e, w') =>
          emotions_loop E rest w' (out ++ [ErrorTesting emotion (str_exn e)])%list
      end
  end.

Definition test_individual_emotions (E : env) (w : world) (out : list printed)
    : world * list printed :=
  let out := (out ++ [Text (newline ++ rule); Text "Testing all emotions"; Text rule])%list in
  let emotions := ["sadness"; "joy"; "love"; "anger"; "fear"; "surprise"] in
  emotions_loop E emotions w out.

(** The script body: the exit status, the world and the lines printed.
    (On a standard output that accepts every line nothing inside the
    script's [try] raises, so its two handlers, which exit with status 1,
    are not entered.) *)
Definition main (is_space : ascii -> bool) (E : env) (argv : list string)
    (w : world) (out : list printed) : Z * world * list printed :=
  let '(success, w, out) := test_all_tools is_space E w out in
  let '(w, out) :=
    if success && existsb (String.eqb "--all") argv
    then test_individual_emotions E w out
    else (w, out) in
  (if success then 0 else 1, w, out).

(** The lines [test_all_tools] prints when its four tests pass with the
    results [j1] to [j4]. *)
Definition passed_block (title : string) (j : json) : list printed :=
  (banner title ++ [Result j; Passed])%list.

Definition report (j1 j2 j3 j4 : json) : list printed :=
  ([Text rule; Text "Testing Emotion MCP Server"; Text rule]
   ++ passed_block "get_sample(n=3)" j1
   ++ passed_block "count_by_emotion(emotion='joy')" j2
   ++ passed_block "search_text(query='happy', limit=10)" j3
   ++ passed_block "analyze_emotion_distribution()" j4
   ++ [Text (newline ++ rule); Text "All tests passed!"; Text rule])%list.

(** [w'] has the cache and the number of loads that [_load_dataset] leaves
    when called in [w]. *)
Definition cache_step (E : env) (w w' : world) : Prop :=
  DATASET w' = DATASET (snd (_load_dataset E w))
  /\ loads w' = loads (snd (_load_dataset E w)).

(** The world after a call of [load_dataset] that failed. *)
Definition failed_world (w : world) : world :=
  {| DATASET := None; loads := S (loads w); draws := draws w |}.

(** A dataset of thirty records, larger than [setsize] for a small
    sample, with a generator whose first draws are 5, 5, 7 and 11. *)
Definition thirty_rows : list record :=
  map (fun i => {| text := "row"; label := Z.of_nat (i mod 6) |}) (seq 0 30).

Definition thirty_env : env :=
  scripted_env (fun _ => Loaded thirty_rows) [5; 5; 7; 11]%nat.

Definition thirty_table : table := {| oid := 0; rows := thirty_rows |}.

Definition thirty_loaded : world :=
  {| DATASET := Some thirty_table; loads := 1; draws := 0 |}.

(** * Properties *)

(** ** Float operations stay finite on the range the tools use *)

Module FloatFacts.
Import PyFloat.

Lemma digits2_pos_bounds (p : positive) :
  2 ^ (Zpos (digits2_pos p) - 1) <= Zpos p < 2 ^ Zpos (digits2_pos p).
Proof.
  induction p as [p IH | p IH |]; cbn [digits2_pos].
  - rewrite Pos2Z.inj_succ.
    replace (Z.succ (Zpos (digits2_pos p)) - 1) with (Z.succ (Zpos (digits2_pos p) - 1)) by lia.
    rewrite !Z.pow_succ_r by lia. lia.
  - rewrite Pos2Z.inj_succ.
    replace (Z.succ (Zpos (digits2_pos p)) - 1) with (Z.succ (Zpos (digits2_pos p) - 1)) by lia.
    rewrite !Z.pow_succ_r by lia. lia.
  - cbn. lia.
Qed.

Lemma Zdigits2_nonneg (m : Z) : 0 <= Zdigits2 m.
Proof. destruct m; cbn; lia. Qed.

Lemma Zdigits2_upper (m k : Z) : 0 <= k -> 0 <= m < 2 ^ k -> Zdigits2 m <= k.
Proof.
  intros Hk [Hm Hlt]. destruct m as [| p | p]; cbn; try lia.
  pose proof (digits2_pos_bounds p) as [Hlo _].
  destruct (Z.le_gt_cases (Zpos (digits2_pos p)) k) as [|Hgt]; [assumption|].
  assert (2 ^ k <= 2 ^ (Zpos (digits2_pos p) - 1)) by (apply Z.pow_le_mono_r; lia).
  lia.
Qed.

Lemma shr_1_bounds (mrs : shr_record) :
  0 <= shr_m mrs -> 0 <= shr_m (shr_1 mrs) <= shr_m mrs.
Proof.
  destruct mrs as [m r s]; cbn [shr_m]; intros Hm.
  destruct m as [| p | p]; [cbn; lia | | lia].
  destruct p; cbn; lia.
Qed.

Lemma iter_shr_1_bounds (n : positive) : forall (b : Z) (mrs : shr_record),
  0 <= shr_m mrs <= b -> 0 <= shr_m (iter_pos shr_1 n mrs) <= b.
Proof.
  induction n as [n IH | n IH |]; intros b mrs H; cbn [iter_pos].
  - apply IH, IH. pose proof (shr_1_bounds mrs). lia.
  - apply IH, IH. assumption.
  - pose proof (shr_1_bounds mrs). lia.
Qed.

Lemma shr_record_of_loc_m (m : Z) (l : location) : shr_m (shr_record_of_loc m l) = m.
Proof. destruct l as [| []]; reflexivity. Qed.

Lemma shr_fexp_bounds (m e : Z) (l : location) :
  0 <= m ->
  0 <= shr_m (fst (shr_fexp prec emax m e l)) <= m
  /\ snd (shr_fexp prec emax m e l) <= Z.max e (fexp prec emax (Zdigits2 m + e)).
Proof.
  intros Hm. unfold shr_fexp, shr.
  destruct (fexp prec emax (Zdigits2 m + e) - e) as [| n | n] eqn:Hn; cbn [fst snd].
  - rewrite shr_record_of_loc_m. lia.
  - split; [| lia]. apply iter_shr_1_bounds. rewrite shr_record_of_loc_m. lia.
  - rewrite shr_record_of_loc_m. lia.
Qed.

Lemma round_nearest_even_bounds (m : Z) (l : location) :
  0 <= m -> 0 <= round_nearest_even m l <= m + 1.
Proof.
  intros Hm. unfold round_nearest_even.
  destruct l as [| []]; try lia. destruct (Z.even m); lia.
Qed.

Lemma binary_round_aux_bounded (s : bool) (m e : Z) (l : location) (k eb : Z) :
  0 <= k -> 0 <= m < 2 ^ k -> e <= eb -> Z.max eb 0 + 2 * k <= 971 ->
  bounded_float (k + 1) (Z.max eb 0 + 2 * k) (binary_round_aux prec emax s m e l).
Proof.
  intros Hk Hm He Hfit. unfold binary_round_aux.
  pose proof (shr_fexp_bounds m e l ltac:(lia)) as [Hm1 He1].
  destruct (shr_fexp prec emax m e l) as [mrs1 e1]. cbn [fst snd] in Hm1, He1.
  pose proof (round_nearest_even_bounds (shr_m mrs1) (loc_of_shr_record mrs1) ltac:(lia)) as Hr.
  set (m2 := round_nearest_even (shr_m mrs1) (loc_of_shr_record mrs1)) in *.
  pose proof (shr_fexp_bounds m2 e1 loc_Exact ltac:(lia)) as [Hm3 He3].
  destruct (shr_fexp prec emax m2 e1 loc_Exact) as [mrs3 e3]. cbn [fst snd] in Hm3, He3.
  assert (Hpow : 2 ^ (k + 1) = 2 * 2 ^ k) by (rewrite Z.pow_add_r by lia; lia).
  pose proof (Zdigits2_upper m k Hk Hm) as Hd1.
  pose proof (Zdigits2_upper m2 (k + 1) ltac:(lia) ltac:(lia)) as Hd2.
  pose proof (Zdigits2_nonneg m) as Hn1. pose proof (Zdigits2_nonneg m2) as Hn2.
  unfold fexp, emin, prec, emax in He1, He3.
  destruct (shr_m mrs3) as [| p | p] eqn:Hp; cbn [bounded_float]; [exact I | | lia].
  assert (Hle : e3 <= 971) by lia.
  unfold prec, emax. replace (1024 - 53) with 971 by reflexivity.
  apply Z.leb_le in Hle. rewrite Hle. cbn [bounded_float]. apply Z.leb_le in Hle. lia.
Qed.


Lemma div_core_bounds (a b : Z) :
  0 < a -> 0 < b ->
  exists q e l,
    SFdiv_core_binary prec emax a 0 b 0 = (q, e, l)
    /\ 0 <= q /\ e <= 0 /\ q * b <= a * 2 ^ (- e)
    /\ - e <= Z.max (53 - Zdigits2 a + Zdigits2 b) 0.
Proof.
  intros Ha Hb. unfold SFdiv_core_binary.
  set (e' := Z.min (fexp prec emax (Zdigits2 a + 0 - (Zdigits2 b + 0))) (0 - 0)).
  assert (He' : e' <= 0 /\ - e' <= Z.max (53 - Zdigits2 a + Zdigits2 b) 0)
    by (unfold e', fexp, emin, prec, emax; lia).
  set (m' := match 0 - 0 - e' with Z0 => a | Zpos _ => Z.shiftl a (0 - 0 - e') | Zneg _ => 0 end).
  assert (Hm' : m' = a * 2 ^ (- e')).
  { unfold m'. destruct (0 - 0 - e') as [| p | p] eqn:Hs.
    - replace (- e') with 0 by lia. cbn. lia.
    - rewrite Z.shiftl_mul_pow2 by lia. f_equal. f_equal. lia.
    - lia. }
  pose proof (Z_div_mod m' b ltac:(lia)) as Hdiv.
  destruct (Z.div_eucl m' b) as [q r].
  exists q, e', (new_location b r). split; [reflexivity |].
  assert (0 <= 2 ^ (- e')) by (apply Z.pow_nonneg; lia).
  assert (0 <= m') by (rewrite Hm'; nia).
  repeat split; try lia; nia.
Qed.

Lemma div_pos_ratio_bounded (s : bool) (a b : Z) :
  0 < a <= b -> bounded_float 55 108 (div_pos s a b).
Proof.
  intros Hab. unfold div_pos.
  destruct (div_core_bounds a b ltac:(lia) ltac:(lia)) as (q & e & l & -> & Hq & He & Hqb & Hs).
  assert (Hq54 : q < 2 ^ 54).
  { destruct a as [| pa | pa]; try lia. destruct b as [| pb | pb]; try lia.
    cbn [Zdigits2] in Hs.
    pose proof (digits2_pos_bounds pa) as [_ Hahi].
    pose proof (digits2_pos_bounds pb) as [Hblo Hbhi].
    pose proof (Zdigits2_upper (Zpos pa) (Zpos (digits2_pos pb)) ltac:(lia) ltac:(lia)) as Hd.
    cbn [Zdigits2] in Hd.
    set (d1 := Zpos (digits2_pos pa)) in *. set (d2 := Zpos (digits2_pos pb)) in *.
    assert (Hd1 : 0 < d1) by (unfold d1; lia).
    destruct (Z.lt_ge_cases q (2 ^ 54)) as [| Hge]; [assumption | exfalso].
    assert (H1 : 2 ^ 54 * 2 ^ (d2 - 1) <= q * Zpos pb).
    { apply Z.mul_le_mono_nonneg; try lia; apply Z.pow_nonneg; lia. }
    assert (H2 : Zpos pa * 2 ^ (- e) < 2 ^ d1 * 2 ^ (- e)).
    { apply Z.mul_lt_mono_pos_r; [apply Z.pow_pos_nonneg; lia | lia]. }
    rewrite <- Z.pow_add_r in H1, H2 by lia.
    assert (2 ^ (d1 + - e) <= 2 ^ (54 + (d2 - 1))) by (apply Z.pow_le_mono_r; lia).
    lia. }
  apply (binary_round_aux_bounded s q e l 54 0); lia.
Qed.

Lemma div_pos_hundred_bounded (s : bool) (a : Z) :
  0 < a < 2 ^ 394 -> bounded_float 455 908 (div_pos s a 100).
Proof.
  intros Ha. unfold div_pos.
  destruct (div_core_bounds a 100 ltac:(lia) ltac:(lia)) as (q & e & l & -> & Hq & He & Hqb & Hs).
  assert (Hq454 : q < 2 ^ 454).
  { pose proof (Zdigits2_nonneg a) as Hd.
    assert (Hd0 : Zdigits2 a <> 0) by (destruct a; cbn; lia).
    change (Zdigits2 100) with 7 in Hs.
    assert (He60 : - e <= 60) by lia.
    assert (H1 : 2 ^ (- e) <= 2 ^ 60) by (apply Z.pow_le_mono_r; lia).
    assert (H2 : a * 2 ^ (- e) <= a * 2 ^ 60) by (apply Z.mul_le_mono_nonneg_l; lia).
    assert (H3 : a * 2 ^ 60 < 2 ^ 394 * 2 ^ 60) by (apply Z.mul_lt_mono_pos_r; lia).
    rewrite <- Z.pow_add_r in H3 by lia. change (394 + 60) with 454 in H3.
    nia. }
  apply (binary_round_aux_bounded s q e l 454 0); lia.
Qed.

Lemma int_truediv_returns (count total : Z) :
  0 <= count <= total -> 0 < total ->
  exists q, int_truediv count total = Returned q /\ bounded_float 55 108 q.
Proof.
  intros Hc Ht. unfold int_truediv.
  destruct (Z.eqb_spec total 0) as [| _]; [lia |].
  destruct (Z.eqb_spec count 0) as [| Hc0].
  - eexists; split; [reflexivity | exact I].
  - pose proof (div_pos_ratio_bounded (xorb (count <? 0) (total <? 0))
                  (Z.abs count) (Z.abs total) ltac:(lia)) as Hb.
    destruct (div_pos _ (Z.abs count) (Z.abs total)) as [z | z | | z m e];
      cbn [bounded_float] in Hb; try contradiction;
      eexists; (split; [reflexivity | cbn [bounded_float]; auto]).
Qed.

Lemma mul_hundred_bounded (q : spec_float) :
  bounded_float 55 108 q -> bounded_float 109 278 (mul q (of_int 100)).
Proof.
  change (of_int 100) with (S754_finite false 7036874417766400 (-46)).
  destruct q as [z | z | | z m e]; cbn [bounded_float]; try contradiction; [trivial |].
  intros [Hm He]. unfold mul, SFmul.
  apply (binary_round_aux_bounded _ _ _ _ 108 62); lia.
Qed.

Lemma round_half_even_bounds (a b : Z) :
  0 <= a -> 0 < b -> 0 <= round_half_even a b <= a + 1.
Proof.
  intros Ha Hb. unfold round_half_even.
  assert (0 <= a / b <= a).
  { split; [apply Z.div_pos; lia |]. apply Z.div_le_upper_bound; nia. }
  destruct (2 * (a mod b) ?= b); [destruct (Z.even (a / b)) | |]; lia.
Qed.

Lemma round_two_returns (x : spec_float) :
  bounded_float 109 278 x -> exists r, round x 2 = Returned r.
Proof.
  destruct x as [z | z | | z m e]; cbn [bounded_float]; try contradiction;
    [intros _; eexists; reflexivity |].
  intros [Hm He]. unfold round. change (10 ^ 2) with 100.
  set (scaled := if 0 <=? e then _ else _).
  assert (Hs : 0 <= scaled < 2 ^ 394).
  { unfold scaled. destruct (Z.leb_spec 0 e) as [He0 | He0].
    - assert (H1 : 2 ^ e <= 2 ^ 278) by (apply Z.pow_le_mono_r; lia).
      assert (H0 : 0 < 2 ^ e) by (apply Z.pow_pos_nonneg; lia).
      assert (H2 : Zpos m * 2 ^ e <= Zpos m * 2 ^ 278) by (apply Z.mul_le_mono_nonneg_l; lia).
      assert (H4 : Zpos m * 2 ^ 278 < 2 ^ 109 * 2 ^ 278) by (apply Z.mul_lt_mono_pos_r; lia).
      rewrite <- Z.pow_add_r in H4 by lia. change (109 + 278) with 387 in H4.
      assert (H3 : 2 ^ 394 = 2 ^ 387 * 128) by reflexivity.
      nia.
    - pose proof (round_half_even_bounds (Zpos m * 100) (2 ^ (- e)) ltac:(lia)
                    ltac:(apply Z.pow_pos_nonneg; lia)) as Hr.
      assert (H3 : 2 ^ 109 * 100 + 1 < 2 ^ 394) by reflexivity.
      lia. }
  destruct (Z.eqb_spec scaled 0) as [| Hnz]; [eexists; reflexivity |].
  pose proof (div_pos_hundred_bounded z scaled ltac:(lia)) as Hb.
  destruct (div_pos z scaled 100) as [z' | z' | | z' m' e'];
    cbn [bounded_float] in Hb; try contradiction; eexists; reflexivity.
Qed.

Lemma percentage_returns (count total : Z) :
  0 <= count <= total ->
  exists pct, percentage count total = Returned pct.
Proof.
  intros Hc. unfold percentage.
  destruct (Z.gtb_spec total 0) as [Ht | Ht]; [| eexists; reflexivity].
  destruct (int_truediv_returns count total Hc Ht) as (q & -> & Hq). cbn [obind].
  destruct (round_two_returns _ (mul_hundred_bounded q Hq)) as (r & ->). cbn [obind].
  eexists; reflexivity.
Qed.

End FloatFacts.

(** ** The model on concrete inputs *)

(** [round(2.675, 2)] is [2.67]: the float nearest to 2.675 lies below it. *)
Example round_2_675 :
  PyFloat.round (PyFloat.div_pos false 2675 1000) 2
  = Returned (PyFloat.div_pos false 267 100).
Proof. reflexivity. Qed.

(** [round(1 / 3 * 100, 2)] is [33.33] and [round(2 / 4 * 100, 2)] is [50.0]. *)
Example percentage_one_third :
  percentage 1 3 = Returned (JFloat (PyFloat.div_pos false 3333 100)).
Proof. reflexivity. Qed.

Example percentage_half :
  percentage 2 4 = Returned (JFloat (PyFloat.of_int 50)).
Proof. reflexivity. Qed.

Example percentage_empty : percentage 0 0 = Returned (JInt 0).
Proof. reflexivity. Qed.

(** The scenario of the specification on the tiny dataset. *)
Example tiny_count_joy :
  fst (call_count_by_emotion tiny_env "joy" init_world)
  = Returned (JObject [("emotion", JString "joy"); ("count", JInt 2);
                       ("total", JInt 4);
                       ("percentage", JFloat (PyFloat.of_int 50))]).
Proof. reflexivity. Qed.

Example tiny_search_happy :
  fst (call_search_text PyStr.unicode_space tiny_env "happy" 10 init_world)
  = Returned (JObject [("query", JString "happy"); ("count", JInt 2);
                       ("results",
                        JArray [entry {| text := "i am so happy"; label := 1 |};
                                entry {| text := "i am happy again"; label := 1 |}])]).
Proof. reflexivity. Qed.

Example tiny_distribution_counts :
  exists p0 p1 p2 p3 p4 p5,
    fst (analyze_emotion_distribution tiny_env init_world)
    = Returned (JObject [("total_samples", JInt 4);
                         ("distribution",
                          JArray [distribution_entry "anger" 0 p0;
                                  distribution_entry "fear" 0 p1;
                                  distribution_entry "joy" 2 p2;
                                  distribution_entry "love" 1 p3;
                                  distribution_entry "sadness" 1 p4;
                                  distribution_entry "surprise" 0 p5])]).
Proof. do 6 eexists. reflexivity. Qed.

(** The two loops of [random.sample].  For a sample of 3 the pool is used
    up to a population of 21: with the draws 5, 5, 7 the second pick finds
    the last entry moved to position 5.  On 30 records the positions are
    redrawn instead: the second 5 is rejected and a fourth draw is used. *)
Example setsize_of_small_sample : setsize 3 = 21 /\ setsize 100 = 1045.
Proof. split; reflexivity. Qed.

Example sample_from_pool :
  random_sample thirty_env 21 3 init_world
  = (Returned [5; 20; 7]%nat, {| DATASET := None; loads := 0; draws := 3 |}).
Proof. reflexivity. Qed.

Example sample_with_redraw :
  random_sample thirty_env 30 3 init_world
  = (Returned [5; 7; 11]%nat, {| DATASET := None; loads := 0; draws := 4 |}).
Proof. reflexivity. Qed.

Example get_sample_of_thirty :
  get_sample thirty_env {| GetSampleInput.n := 3 |} init_world
  = (Returned (JArray [entry {| text := "row"; label := 5 |};
                       entry {| text := "row"; label := 1 |};
                       entry {| text := "row"; label := 5 |}]),
     {| DATASET := Some thirty_table; loads := 1; draws := 4 |}).
Proof. reflexivity. Qed.

(** A limit below 1, which the input model excludes, would still return
    one match: the loop tests the limit only after it has appended. *)
Example search_loop_limit_zero :
  search_loop "happy" 0 tiny_rows []
  = Returned [entry {| text := "i am so happy"; label := 1 |}].
Proof. reflexivity. Qed.

(** A record whose label is no key of the label mapping: the tools that
    resolve it return the error payload. *)
Example unknown_label_payload :
  fst (analyze_emotion_distribution
         {| source := fun _ => Loaded [ {| text := "odd"; label := 7 |} ];
            entropy := fun k => k;
     patience := fun _ n => n; fair := counter_fair |} init_world)
  = Returned (error_payload "Failed to analyze distribution: 7").
Proof. reflexivity. Qed.

(** ** The loader *)

Section Loader.
Variable E : env.

Lemma load_cached (w : world) (h : table) :
  DATASET w = Some h -> _load_dataset E w = (Returned h, w).
Proof. intros H. unfold _load_dataset. now rewrite H. Qed.

Lemma load_returned (w w' : world) (h : table) :
  _load_dataset E w = (Returned h, w') -> DATASET w' = Some h.
Proof.
  unfold _load_dataset. destruct (DATASET w) as [h0 |] eqn:Hd.
  - intros [= <- <-]. exact Hd.
  - destruct (source E (loads w)); intros [= <- <-]. reflexivity.
Qed.

Lemma load_raised (w w' : world) (e : exn) :
  _load_dataset E w = (Raised e, w') ->
  DATASET w' = None /\ exists msg, e = LoadError msg.
Proof.
  unfold _load_dataset. destruct (DATASET w) as [h0 |]; [discriminate |].
  destruct (source E (loads w)) as [rs | msg]; [discriminate |].
  intros [= <- <-]. split; [reflexivity | now exists msg].
Qed.

(** A second call after one that returned gives the same table and
    leaves the world alone. *)
Lemma load_again (w w' : world) (h : table) :
  _load_dataset E w = (Returned h, w') -> _load_dataset E w' = (Returned h, w').
Proof. intros H. apply load_cached. exact (load_returned _ _ _ H). Qed.

Lemma load_step (w w1 : world) (r : outcome table) :
  at_most_one_load E w -> _load_dataset E w = (r, w1) ->
  at_most_one_load E w1
  /\ (forall h, r = Returned h -> DATASET w1 = Some h)
  /\ (forall h0, DATASET w = Some h0 -> DATASET w1 = Some h0).
Proof.
  unfold at_most_one_load, _load_dataset.
  destruct (DATASET w) as [h0 |] eqn:Hd.
  - intros Hinv [= <- <-]. rewrite Hd. repeat split; auto. now intros h [= <-].
  - intros Hinv. destruct (source E (loads w)) as [rs | msg] eqn:Hs;
      intros [= <- <-]; cbn [DATASET loads successful_loads]; rewrite Hs.
    + repeat split; [lia | now intros h [= <-] | discriminate].
    + repeat split; [lia | discriminate | discriminate].
Qed.

Lemma load_calls_invariant (k : nat) : forall w : world,
  at_most_one_load E w ->
  at_most_one_load E (snd (load_calls E k w))
  /\ (forall h, In (Returned h) (fst (load_calls E k w)) ->
      DATASET (snd (load_calls E k w)) = Some h)
  /\ (forall h0, DATASET w = Some h0 ->
      DATASET (snd (load_calls E k w)) = Some h0).
Proof.
  induction k as [| k IH]; intros w Hinv; cbn [load_calls].
  - cbn. repeat split; auto. intros h [].
  - destruct (_load_dataset E w) as [r w1] eqn:Hl.
    destruct (load_step w w1 r Hinv Hl) as (Hinv1 & Hret & Hkeep).
    specialize (IH w1 Hinv1). destruct (load_calls E k w1) as [rs wk].
    cbn [fst snd] in *. destruct IH as (Hinvk & Hin & Hkeepk).
    repeat split; auto.
    intros h [-> | Hh]; [apply Hkeepk, Hret; reflexivity | now apply Hin].
Qed.
End Loader.

(** C7. The cache is loaded at most once: a populated cache is returned as
    it is, without a call of [load_dataset]; on an empty cache a successful
    load populates it and returns the new table; a failed load raises the
    load error, leaves the cache empty and the next call asks the source
    again; and over any run of calls from the start of the process at most
    one call of [load_dataset] has succeeded and every call that returns
    returns the same table. *)
Theorem dataset_cache_loads_at_most_once (E : env) :
  (forall w h, DATASET w = Some h -> _load_dataset E w = (Returned h, w))
  /\ (forall w rs, DATASET w = None -> source E (loads w) = Loaded rs ->
      exists h w', _load_dataset E w = (Returned h, w')
        /\ rows h = rs /\ DATASET w' = Some h /\ loads w' = S (loads w))
  /\ (forall w msg, DATASET w = None -> source E (loads w) = LoadFailed msg ->
      exists w', _load_dataset E w = (Raised (LoadError msg), w')
        /\ DATASET w' = None /\ loads w' = S (loads w)
        /\ forall rs, source E (loads w') = Loaded rs ->
             exists h w'', _load_dataset E w' = (Returned h, w'') /\ rows h = rs)
  /\ (forall k,
      (successful_loads E (loads (snd (load_calls E k init_world))) <= 1)%nat
      /\ forall h h', In (Returned h) (fst (load_calls E k init_world)) ->
                      In (Returned h') (fst (load_calls E k init_world)) ->
                      h = h').
Proof.
  split; [exact (load_cached E) |]. split; [| split].
  - intros w rs Hd Hs. unfold _load_dataset. rewrite Hd, Hs.
    eexists; eexists; split; [reflexivity |]. cbn. auto.
  - intros w msg Hd Hs. unfold _load_dataset at 1. rewrite Hd, Hs.
    eexists; split; [reflexivity |]. cbn [DATASET loads]. repeat split.
    intros rs Hs'. unfold _load_dataset. cbn [DATASET loads]. rewrite Hs'.
    eexists; eexists; split; reflexivity.
  - intros k.
    destruct (load_calls_invariant E k init_world eq_refl) as (Hinv & Hin & _).
    split.
    + unfold at_most_one_load in Hinv.
      destruct (DATASET (snd (load_calls E k init_world))); lia.
    + intros h h' Hh Hh'. apply Hin in Hh, Hh'. congruence.
Qed.

Lemma dataset_cache_loads_at_most_once_witness :
  _load_dataset tiny_env init_world
  = (Returned {| oid := 0; rows := tiny_rows |},
     {| DATASET := Some {| oid := 0; rows := tiny_rows |}; loads := 1; draws := 0 |})
  /\ _load_dataset tiny_env
       {| DATASET := Some {| oid := 0; rows := tiny_rows |}; loads := 1; draws := 0 |}
     = (Returned {| oid := 0; rows := tiny_rows |},
        {| DATASET := Some {| oid := 0; rows := tiny_rows |}; loads := 1; draws := 0 |}).
Proof.
  split; [reflexivity |].
  destruct (dataset_cache_loads_at_most_once tiny_env) as (Hcached & _).
  apply Hcached. reflexivity.
Defined.

(** ** The label mapping *)

Ltac split_eqb :=
  repeat (match goal with
          | |- context [Z.eqb ?a ?b] => destruct (Z.eqb_spec a b); try subst; try lia
          end; cbn -[Z.eqb]).

Lemma find_label_id_member (e : EmotionType) :
  exists lid,
    find_label_id EMOTION_LABELS (value e) = Some lid
    /\ forall r, (label r =? lid) = resolves_to (value e) r.
Proof.
  destruct e; eexists; (split; [reflexivity |]); intros r;
    unfold resolves_to, resolve; generalize (label r); intros l;
    cbn -[Z.eqb]; split_eqb; reflexivity.
Qed.

Lemma member_of_value (e : EmotionType) :
  CountByEmotionInput.make (value e)
  = Returned {| CountByEmotionInput.emotion := e |}.
Proof. destruct e; reflexivity. Qed.

Lemma valid_label_resolves (l : Z) :
  valid_label l -> getitem_int EMOTION_LABELS l = Returned (emotion_of l).
Proof.
  unfold valid_label. cbn.
  intros [<- | [<- | [<- | [<- | [<- | [<- | []]]]]]]; reflexivity.
Qed.

Lemma count_of_cons (name : string) (r : record) (rs : list record) :
  count_of name (r :: rs)
  = (if resolves_to name r then 1 else 0) + count_of name rs.
Proof.
  unfold count_of. cbn [filter]. destruct (resolves_to name r); cbn [List.length]; lia.
Qed.

Lemma count_of_bounds (name : string) (rs : list record) :
  0 <= count_of name rs <= Z.of_nat (List.length rs).
Proof.
  induction rs as [| r rs IH]; [cbn; lia |].
  rewrite count_of_cons. cbn [List.length]. destruct (resolves_to name r); lia.
Qed.

Lemma count_label_fold (f : record -> bool) (lid : Z) (rs : list record) :
  (forall r, (label r =? lid) = f r) ->
  forall acc,
    fold_left (fun acc item => if label item =? lid then acc + 1 else acc) rs acc
    = acc + Z.of_nat (List.length (filter f rs)).
Proof.
  intros Hf. induction rs as [| r rs IH]; intros acc; cbn [fold_left filter].
  - cbn. lia.
  - rewrite IH, Hf. destruct (f r); cbn [List.length]; lia.
Qed.

(** On valid rows every record is counted under exactly one name. *)
Lemma count_of_partition (rs : list record) :
  valid_rows rs ->
  sum_Z (map (fun e => count_of (value e) rs) members) = Z.of_nat (List.length rs).
Proof.
  induction 1 as [| r rs Hr _ IH]; [reflexivity |].
  cbn [map members sum_Z fold_right value] in *.
  rewrite !count_of_cons. cbn [List.length].
  unfold valid_label in Hr. cbn in Hr. unfold resolves_to, resolve.
  destruct Hr as [<- | [<- | [<- | [<- | [<- | [<- | []]]]]]];
    cbn -[count_of Z.of_nat Z.add]; lia.
Qed.

Lemma percentage_is (count total : Z) (pct : json) :
  percentage count total = Returned pct -> is_percentage count total pct.
Proof.
  unfold percentage, is_percentage. destruct (total >? 0); [| now intros [= <-]].
  destruct (PyFloat.int_truediv count total) as [ratio |]; [| discriminate].
  cbn [obind].
  destruct (PyFloat.round _ 2) as [rounded |] eqn:Hround; [| discriminate].
  intros [= <-]. exists ratio, rounded. auto.
Qed.

(** ** [count_by_emotion] *)

Lemma count_by_emotion_loaded (E : env) (e : EmotionType) (w w' : world)
    (dataset : table) :
  _load_dataset E w = (Returned dataset, w') ->
  exists pct,
    count_by_emotion E {| CountByEmotionInput.emotion := e |} w
    = (Returned (count_payload e dataset pct), w')
    /\ is_percentage (count_of (value e) (rows dataset)) (len_dataset dataset) pct.
Proof.
  intros Hload.
  destruct (find_label_id_member e) as (lid & Hfind & Hlid).
  destruct (FloatFacts.percentage_returns (count_of (value e) (rows dataset))
              (len_dataset dataset) (count_of_bounds _ _)) as (pct & Hpct).
  exists pct. split; [| now apply percentage_is].
  unfold count_by_emotion, try_except, count_by_emotion_body, bind, lift, ret.
  cbn [CountByEmotionInput.emotion]. rewrite Hload, Hfind.
  unfold count_label. rewrite (count_label_fold _ lid _ Hlid). cbn [Z.add].
  fold (count_of (value e) (rows dataset)). rewrite Hpct. reflexivity.
Qed.

(** C1. For each of the six emotions, once the dataset is available,
    [count_by_emotion] returns [{emotion, count, total, percentage}]: the
    count is the number of records whose label resolves to the emotion, the
    total is the size of the dataset, and the percentage is
    [round(count / total * 100, 2)] when the total is positive and [0]
    when it is zero.  The same holds of the call written with the
    emotion's name. *)
Theorem count_by_emotion_result (E : env) (e : EmotionType) (w w' : world)
    (dataset : table) :
  _load_dataset E w = (Returned dataset, w') ->
  exists pct,
    count_by_emotion E {| CountByEmotionInput.emotion := e |} w
    = (Returned (JObject [("emotion", JString (value e));
                          ("count", JInt (count_of (value e) (rows dataset)));
                          ("total", JInt (Z.of_nat (List.length (rows dataset))));
                          ("percentage", pct)]), w')
    /\ call_count_by_emotion E (value e) w
       = count_by_emotion E {| CountByEmotionInput.emotion := e |} w
    /\ is_percentage (count_of (value e) (rows dataset))
         (Z.of_nat (List.length (rows dataset))) pct.
Proof.
  intros Hload. destruct (count_by_emotion_loaded E e w w' dataset Hload) as (pct & Hres & Hpct).
  exists pct. split; [exact Hres | split; [| exact Hpct]].
  unfold call_count_by_emotion, bind, lift. now rewrite member_of_value.
Qed.

Lemma count_by_emotion_result_witness :
  exists pct,
    count_by_emotion tiny_env {| CountByEmotionInput.emotion := JOY |} init_world
    = (Returned (JObject [("emotion", JString "joy");
                          ("count", JInt 2);
                          ("total", JInt 4);
                          ("percentage", pct)]), tiny_loaded)
    /\ call_count_by_emotion tiny_env "joy" init_world
       = count_by_emotion tiny_env {| CountByEmotionInput.emotion := JOY |} init_world
    /\ is_percentage 2 4 pct.
Proof.
  exact (count_by_emotion_result tiny_env JOY init_world tiny_loaded tiny_table eq_refl).
Defined.

(** C10. For each member of [EmotionType] the search over
    [EMOTION_LABELS] finds a label id, so [count_by_emotion] never takes
    the branch that reports an unknown emotion. *)
Theorem unknown_emotion_branch_unreachable :
  (forall e : EmotionType, exists lid, find_label_id EMOTION_LABELS (value e) = Some lid)
  /\ (forall (E : env) (params : CountByEmotionInput.t) (w : world),
      fst (count_by_emotion E params w)
      <> Returned (error_payload
                     ("Unknown emotion: " ++ value (CountByEmotionInput.emotion params)))).
Proof.
  split.
  - intros e. destruct (find_label_id_member e) as (lid & H & _). now exists lid.
  - intros E [e] w. cbn [CountByEmotionInput.emotion].
    destruct (_load_dataset E w) as [[dataset | ex] w1] eqn:Hload.
    + destruct (count_by_emotion_loaded E e w w1 dataset Hload) as (pct & -> & _).
      cbn [fst]. unfold count_payload, error_payload. discriminate.
    + unfold count_by_emotion, try_except, count_by_emotion_body, bind, ret.
      rewrite Hload. cbn. discriminate.
Qed.

(** C8. On a dataset whose labels are all keys of the label mapping, the six
    results of [count_by_emotion] all report the size of the dataset as
    their total, and their counts add up to it. *)
Theorem counts_sum_to_total (E : env) (w w' : world) (dataset : table) :
  _load_dataset E w = (Returned dataset, w') ->
  valid_rows (rows dataset) ->
  exists counts,
    Forall2
      (fun e c =>
         exists pct,
           fst (count_by_emotion E {| CountByEmotionInput.emotion := e |} w)
           = Returned (JObject [("emotion", JString (value e));
                                ("count", JInt c);
                                ("total", JInt (Z.of_nat (List.length (rows dataset))));
                                ("percentage", pct)]))
      members counts
    /\ sum_Z counts = Z.of_nat (List.length (rows dataset)).
Proof.
  intros Hload Hvalid.
  exists (map (fun e => count_of (value e) (rows dataset)) members).
  split; [| now apply count_of_partition].
  unfold members. cbn [map].
  repeat constructor;
    match goal with
    | |- exists _, fst (count_by_emotion _ {| CountByEmotionInput.emotion := ?e |} _) = _ =>
        destruct (count_by_emotion_loaded E e w w' dataset Hload) as (pct & -> & _);
        now exists pct
    end.
Qed.

Lemma counts_sum_to_total_witness :
  exists counts,
    Forall2
      (fun e c =>
         exists pct,
           fst (count_by_emotion tiny_env {| CountByEmotionInput.emotion := e |} init_world)
           = Returned (JObject [("emotion", JString (value e));
                                ("count", JInt c);
                                ("total", JInt 4);
                                ("percentage", pct)]))
      members counts
    /\ sum_Z counts = 4.
Proof.
  apply (counts_sum_to_total tiny_env init_world tiny_loaded tiny_table eq_refl).
  unfold valid_rows, tiny_table, tiny_rows, rows.
  repeat (apply Forall_cons; [unfold valid_label; cbn; lia |]). apply Forall_nil.
Defined.

(** ** Substring search *)

Lemma prefix_app (n h : string) :
  String.prefix n h = true <-> exists post, h = n ++ post.
Proof.
  revert h. induction n as [| c n IH]; intros h.
  - split; [intros _; now exists h | intros _; destruct h; reflexivity].
  - destruct h as [| c' h]; cbn [String.prefix].
    + split; [discriminate | intros [post Hp]; discriminate].
    + destruct (Ascii.ascii_dec c c') as [<- | Hne].
      * rewrite IH. split; intros [post Hp]; exists post; cbn in *; congruence.
      * split; [discriminate | intros [post Hp]; cbn in Hp; congruence].
Qed.

(** [needle in hay] holds exactly when [hay] is [pre + needle + post]. *)
Lemma contains_spec (n h : string) :
  PyStr.contains n h = true <-> exists pre post, h = pre ++ n ++ post.
Proof.
  split.
  - induction h as [| c h IH]; cbn [PyStr.contains]; intros H;
      apply orb_true_iff in H; destruct H as [H | H];
      try (apply prefix_app in H; destruct H as [post ->]; now exists "", post);
      [discriminate |].
    destruct (IH H) as (pre & post & ->). now exists (String c pre), post.
  - intros (pre & post & ->). induction pre as [| c pre IH].
    + cbn [append]. assert (Hp : String.prefix n (n ++ post) = true)
        by (apply prefix_app; now exists post).
      destruct (n ++ post); cbn [PyStr.contains]; rewrite Hp; reflexivity.
    + cbn [append PyStr.contains]. rewrite IH. apply orb_true_r.
Qed.

Lemma search_loop_spec (q : string) (limit : Z) : forall items results,
  valid_rows items ->
  Z.of_nat (List.length results) < limit ->
  search_loop (PyStr.lower q) limit items results
  = Returned (results
              ++ map entry (firstn (Z.to_nat limit - List.length results)
                              (filter (matches q) items)))%list.
Proof.
  induction items as [| item rest IH]; intros results Hvalid Hlen.
  - cbn. now rewrite firstn_nil, app_nil_r.
  - inversion Hvalid as [| ? ? Hitem Hrest]; subst.
    cbn [search_loop filter].
    change (PyStr.contains (PyStr.lower q) (PyStr.lower (text item)))
      with (matches q item).
    destruct (matches q item); [| now apply IH].
    rewrite (valid_label_resolves _ Hitem). cbn [obind].
    change (sample_entry item (emotion_of (label item))) with (entry item).
    assert (Hlen' : List.length (results ++ [entry item]) = S (List.length results))
      by (rewrite length_app; cbn; lia).
    destruct (Z.of_nat (List.length (results ++ [entry item])) >=? limit) eqn:Hc.
    + apply Z.geb_le in Hc.
      replace (Z.to_nat limit - List.length results)%nat with 1%nat by lia.
      reflexivity.
    + assert (Hlt : Z.of_nat (List.length (results ++ [entry item])) < limit).
      { destruct (Z.lt_ge_cases (Z.of_nat (List.length (results ++ [entry item]))) limit)
          as [| Hge]; [assumption |].
        apply Z.geb_le in Hge. congruence. }
      rewrite (IH _ Hrest Hlt), Hlen'.
      replace (Z.to_nat limit - List.length results)%nat
        with (S (Z.to_nat limit - S (List.length results)))%nat by lia.
      cbn [firstn map]. now rewrite <- app_assoc.
Qed.

Lemma In_firstn {A} (k : nat) (l : list A) (x : A) :
  In x (firstn k l) -> In x l.
Proof.
  intros Hx. rewrite <- (firstn_skipn k l). apply in_or_app. now left.
Qed.

Lemma filter_firstn_Forall {A} (f : A -> bool) (k : nat) (l : list A) :
  Forall (fun x => f x = true) (firstn k (filter f l)).
Proof.
  apply Forall_forall. intros x Hx. apply In_firstn in Hx.
  now apply filter_In in Hx.
Qed.

(** C2. For a limit between 1 and 100, once the dataset is available and its
    labels are keys of the label mapping, [search_text] returns the first
    [min(limit, number of matches)] records, in stored order, whose
    lowercased text contains the lowercased query; every returned text
    contains the query in this sense, there are at most [limit] results, and
    [count] is the length of [results]. *)
Theorem search_text_result (E : env) (params : SearchTextInput.t) (w w' : world)
    (dataset : table) :
  1 <= SearchTextInput.limit params <= 100 ->
  _load_dataset E w = (Returned dataset, w') ->
  valid_rows (rows dataset) ->
  let query := SearchTextInput.query params in
  let limit := SearchTextInput.limit params in
  let found := filter (matches query) (rows dataset) in
  let hits := firstn (Z.to_nat limit) found in
  search_text E params w
  = (Returned (JObject [("query", JString query);
                        ("count", JInt (Z.of_nat (List.length (map entry hits))));
                        ("results", JArray (map entry hits))]), w')
  /\ List.length hits = Nat.min (Z.to_nat limit) (List.length found)
  /\ Z.of_nat (List.length (map entry hits)) <= limit
  /\ Forall (fun r => exists pre post,
               PyStr.lower (text r) = pre ++ PyStr.lower query ++ post) hits.
Proof.
  intros Hlimit Hload Hvalid query limit found hits.
  assert (Hhits : List.length hits = Nat.min (Z.to_nat limit) (List.length found))
    by apply length_firstn.
  split; [| split; [exact Hhits | split]].
  - subst hits found query limit.
    unfold search_text, try_except, search_text_body, bind, lift, ret.
    rewrite Hload.
    rewrite (search_loop_spec _ _ (rows dataset) [] Hvalid) by (cbn; lia).
    cbn [List.length app]. rewrite Nat.sub_0_r. reflexivity.
  - rewrite length_map, Hhits. lia.
  - eapply Forall_impl; [| apply filter_firstn_Forall].
    intros r Hr. now apply contains_spec.
Qed.

Lemma search_text_result_witness :
  search_text tiny_env {| SearchTextInput.query := "HAPPY"; SearchTextInput.limit := 1 |}
    init_world
  = (Returned (JObject [("query", JString "HAPPY");
                        ("count", JInt 1);
                        ("results",
                         JArray [JObject [("text", JString "i am so happy");
                                          ("emotion", JString "joy");
                                          ("label_id", JInt 1)]])]),
     tiny_loaded).
Proof.
  refine (proj1 (search_text_result tiny_env
                   {| SearchTextInput.query := "HAPPY"; SearchTextInput.limit := 1 |}
                   init_world tiny_loaded tiny_table _ eq_refl _)).
  - cbn. lia.
  - unfold valid_rows, tiny_table, tiny_rows, rows.
    repeat (apply Forall_cons; [unfold valid_label; cbn; lia |]). apply Forall_nil.
Defined.

(** ** [analyze_emotion_distribution] *)








(** ** [get_sample] *)

Lemma length_list_set {A} (l : list A) : forall i v,
  List.length (list_set l i v) = List.length l.
Proof.
  induction l as [| x l IH]; intros [| i] v; cbn; auto.
Qed.

Lemma nth_list_set_eq {A} (l : list A) : forall i v d,
  (i < List.length l)%nat -> nth i (list_set l i v) d = v.
Proof.
  induction l as [| x l IH]; intros [| i] v d; cbn; try lia; auto.
  intros H. apply IH. lia.
Qed.

Lemma nth_list_set_neq {A} (l : list A) : forall i j v d,
  i <> j -> nth i (list_set l j v) d = nth i l d.
Proof.
  induction l as [| x l IH]; intros [| i] [| j] v d Hne; cbn; try congruence; auto.
Qed.

Section Sampling.
Variable E : env.
Variable bound : nat.

(** After a pick at [j], the entry at [i] is the old last entry when
    [i = j] and the old entry at [i] otherwise. *)
Lemma nth_after_pick (pool : list nat) (m j i : nat) :
  (m <= List.length pool)%nat -> (j < m)%nat ->
  nth i (list_set pool j (nth (m - 1) pool O)) O
  = nth (if (i =? j)%nat then (m - 1)%nat else i) pool O.
Proof.
  intros Hm Hj. destruct (Nat.eqb_spec i j) as [-> | Hne].
  - apply nth_list_set_eq. lia.
  - now apply nth_list_set_neq.
Qed.

Lemma pool_ok_after_pick (pool : list nat) (m j : nat) :
  pool_ok bound pool m -> (j < m)%nat ->
  pool_ok bound (list_set pool j (nth (m - 1) pool O)) (m - 1).
Proof.
  intros (Hlen & Hbound & Hinj) Hj. repeat split.
  - rewrite length_list_set. lia.
  - intros i Hi. rewrite (nth_after_pick pool m j i Hlen Hj).
    apply Hbound. destruct (i =? j)%nat; lia.
  - intros i i' Hi Hi'.
    rewrite (nth_after_pick pool m j i Hlen Hj), (nth_after_pick pool m j i' Hlen Hj).
    intros Heq. apply Hinj in Heq.
    + destruct (Nat.eqb_spec i j), (Nat.eqb_spec i' j); lia.
    + destruct (i =? j)%nat; lia.
    + destruct (i' =? j)%nat; lia.
Qed.

Lemma sample_loop_spec : forall k pool m pos,
  pool_ok bound pool m -> (k <= m)%nat ->
  List.length (sample_loop E pool m k pos) = k
  /\ (forall x, In x (sample_loop E pool m k pos) ->
      exists i, (i < m)%nat /\ x = nth i pool O)
  /\ NoDup (sample_loop E pool m k pos).
Proof.
  induction k as [| k IH]; intros pool m pos Hok Hk; cbn [sample_loop].
  - repeat split; [intros x [] | constructor].
  - set (j := (entropy E pos mod m)%nat).
    assert (Hj : (j < m)%nat) by (apply Nat.mod_upper_bound; lia).
    pose proof (pool_ok_after_pick pool m j Hok Hj) as Hok'.
    destruct (IH _ _ (S pos) Hok' ltac:(lia)) as (Hlen & Hin & Hnodup).
    destruct Hok as (Hm & _ & Hinj).
    assert (Hrest : forall x,
               In x (sample_loop E (list_set pool j (nth (m - 1) pool O)) (m - 1) k (S pos)) ->
               exists i, (i < m)%nat /\ i <> j /\ x = nth i pool O).
    { intros x Hx. destruct (Hin x Hx) as (i & Hi & ->).
      rewrite (nth_after_pick pool m j i Hm Hj).
      exists (if (i =? j)%nat then (m - 1)%nat else i).
      destruct (Nat.eqb_spec i j); repeat split; lia. }
    repeat split.
    + cbn [List.length]. now rewrite Hlen.
    + intros x [<- | Hx]; [now exists j |].
      destruct (Hrest x Hx) as (i & Hi & _ & ->). now exists i.
    + constructor; [| exact Hnodup].
      intros Hx. destruct (Hrest _ Hx) as (i & Hi & Hne & Heq).
      apply Hinj in Heq; lia.
Qed.
End Sampling.

Lemma pool_ok_range (size : nat) : pool_ok size (seq 0 size) size.
Proof.
  repeat split.
  - now rewrite length_seq.
  - intros i Hi. rewrite seq_nth by lia. lia.
  - intros i i' Hi Hi'. rewrite !seq_nth by lia. lia.
Qed.

(** *** The loop that redraws *)

Lemma existsb_eqb_In (j : nat) (l : list nat) :
  existsb (Nat.eqb j) l = true <-> In j l.
Proof.
  rewrite existsb_exists. split.
  - intros (x & Hx & Heq). apply Nat.eqb_eq in Heq. now subst.
  - intros H. exists j. split; [assumption | apply Nat.eqb_refl].
Qed.

(** Fewer than [n] selected positions leave one below [n] unselected. *)
Lemma unselected_exists (n : nat) (selected : list nat) :
  (List.length selected < n)%nat -> exists r, (r < n)%nat /\ ~ In r selected.
Proof.
  intros Hlen.
  destruct (Forall_Exists_dec (fun r => In r selected)
              (fun r => in_dec Nat.eq_dec r selected) (seq 0 n)) as [Hall | Hsome].
  - exfalso. rewrite Forall_forall in Hall.
    pose proof (NoDup_incl_length (seq_NoDup n 0) Hall) as Hle.
    rewrite length_seq in Hle. lia.
  - apply Exists_exists in Hsome. destruct Hsome as (r & Hr & Hnot).
    apply in_seq in Hr. exists r. split; [lia | assumption].
Qed.

Lemma draw_fresh_pos (E : env) (n : nat) (selected : list nat) : forall fuel pos j pos',
  draw_fresh E n selected fuel pos = Some (j, pos') -> (pos < pos')%nat.
Proof.
  induction fuel as [| fuel IH]; intros pos j pos'; cbn [draw_fresh]; [discriminate |].
  destruct (existsb _ selected).
  - intros H. apply IH in H. lia.
  - intros [= _ <-]. lia.
Qed.

(** The redraws end as soon as a draw is unselected. *)
Lemma draw_fresh_finds (E : env) (n : nat) (selected : list nat) : forall fuel pos,
  (0 < n)%nat ->
  (exists d, (d < fuel)%nat /\ ~ In (entropy E (pos + d) mod n)%nat selected) ->
  exists j pos',
    draw_fresh E n selected fuel pos = Some (j, pos')
    /\ (j < n)%nat /\ ~ In j selected.
Proof.
  induction fuel as [| fuel IH]; intros pos Hn (d & Hd & Hfresh); [lia |].
  cbn [draw_fresh].
  destruct (existsb (Nat.eqb (entropy E pos mod n)) selected) eqn:Hsel.
  - apply existsb_eqb_In in Hsel.
    destruct d as [| d]; [rewrite Nat.add_0_r in Hfresh; contradiction |].
    apply IH; [assumption |]. exists d. split; [lia |].
    now replace (S pos + d)%nat with (pos + S d)%nat by lia.
  - exists (entropy E pos mod n)%nat, (S pos). repeat split.
    + apply Nat.mod_upper_bound. lia.
    + intros Hin. apply existsb_eqb_In in Hin. congruence.
Qed.

(** The loop returns: [k] distinct positions below [n], none of them
    selected before. *)
Lemma reject_loop_returns (E : env) (n : nat) : forall k selected pos,
  (List.length selected + k <= n)%nat ->
  exists result pos',
    reject_loop E n k selected pos = Some (result, pos')
    /\ List.length result = k
    /\ NoDup result
    /\ (forall x, In x result -> (x < n)%nat /\ ~ In x selected).
Proof.
  induction k as [| k IH]; intros selected pos Hlen; cbn [reject_loop].
  - exists [], pos. repeat split; [constructor | destruct H | destruct H].
  - destruct (unselected_exists n selected ltac:(lia)) as (r & Hr & Hnot).
    destruct (fair E pos n r Hr) as (d & Hd & Hdraw).
    assert (Hsome : exists d, (d < patience E pos n)%nat
                              /\ ~ In (entropy E (pos + d) mod n)%nat selected).
    { exists d. split; [exact Hd | now rewrite Hdraw]. }
    destruct (draw_fresh_finds E n selected (patience E pos n) pos ltac:(lia) Hsome)
      as (j & pos1 & -> & Hj & Hfresh).
    destruct (IH (j :: selected) pos1 ltac:(cbn [List.length]; lia))
      as (result & pos2 & -> & Hsize & Hnodup & Hall).
    exists (j :: result), pos2. repeat split.
    + cbn [List.length]. now rewrite Hsize.
    + constructor; [| exact Hnodup].
      intros Hin. apply Hall in Hin. destruct Hin as (_ & Hin). apply Hin. now left.
    + destruct H as [<- | Hx]; [assumption | now apply Hall].
    + destruct H as [<- | Hx]; [assumption |].
      apply Hall in Hx. destruct Hx as (_ & Hx). intros Hin. apply Hx. now right.
Qed.

Lemma reject_loop_pos (E : env) (n : nat) : forall k selected pos result pos',
  reject_loop E n k selected pos = Some (result, pos') -> (pos <= pos')%nat.
Proof.
  induction k as [| k IH]; intros selected pos result pos'; cbn [reject_loop].
  - intros [= _ <-]. lia.
  - destruct (draw_fresh E n selected (patience E pos n) pos) as [[j pos1] |] eqn:Hdraw;
      [| discriminate].
    apply draw_fresh_pos in Hdraw.
    destruct (reject_loop E n k (j :: selected) pos1) as [[rest pos2] |] eqn:Hrest;
      [| discriminate].
    apply IH in Hrest. intros [= _ <-]. lia.
Qed.

(** [random.sample(range(total), k)] returns [k] distinct indices below
    [total], by whichever of its two loops. *)
Lemma random_sample_spec (E : env) (total k : Z) (w : world) :
  0 <= k <= total ->
  exists indices w',
    random_sample E total k w = (Returned indices, w')
    /\ DATASET w' = DATASET w /\ loads w' = loads w
    /\ Z.of_nat (List.length indices) = k
    /\ NoDup indices
    /\ Forall (fun i => (i < Z.to_nat total)%nat) indices.
Proof.
  intros Hk. unfold random_sample.
  destruct (Z.ltb_spec k 0); [lia |]. destruct (Z.ltb_spec total k); [lia |].
  cbn [orb]. destruct (total <=? setsize k).
  - destruct (sample_loop_spec E (Z.to_nat total) (Z.to_nat k) (seq 0 (Z.to_nat total))
                (Z.to_nat total) (draws w) (pool_ok_range _) ltac:(lia))
      as (Hlen & Hin & Hnodup).
    eexists; eexists; split; [reflexivity |]. cbn [DATASET loads].
    repeat split; [lia | exact Hnodup |].
    apply Forall_forall. intros x Hx. destruct (Hin x Hx) as (i & Hi & ->).
    rewrite seq_nth by lia. lia.
  - destruct (reject_loop_returns E (Z.to_nat total) (Z.to_nat k) [] (draws w)
                ltac:(cbn [List.length]; lia))
      as (result & pos & -> & Hlen & Hnodup & Hall).
    eexists; eexists; split; [reflexivity |]. cbn [DATASET loads].
    repeat split; [lia | exact Hnodup |].
    apply Forall_forall. intros x Hx. now apply Hall.
Qed.

Lemma collect_samples_spec (dataset : table) :
  valid_rows (rows dataset) ->
  forall indices acc,
    Forall (fun i => (i < List.length (rows dataset))%nat) indices ->
    exists out,
      collect_samples dataset indices acc = Returned (acc ++ out)%list
      /\ Forall2 (drawn dataset) indices out.
Proof.
  intros Hvalid. induction indices as [| idx rest IH]; intros acc Hidx.
  - exists []. split; [cbn; now rewrite app_nil_r | constructor].
  - inversion Hidx as [| ? ? Hlt Hrest]; subst.
    destruct (nth_error (rows dataset) idx) as [r |] eqn:Hr;
      [| apply nth_error_Some in Hlt; contradiction].
    assert (Hlabel : valid_label (label r)).
    { unfold valid_rows in Hvalid. rewrite Forall_forall in Hvalid.
      apply Hvalid. eapply nth_error_In. exact Hr. }
    destruct (IH (acc ++ [sample_entry r (emotion_of (label r))])%list Hrest)
      as (out & Hout & Hall).
    exists (sample_entry r (emotion_of (label r)) :: out). split.
    + cbn [collect_samples]. unfold dataset_getitem. rewrite Hr. cbn [obind].
      rewrite (valid_label_resolves _ Hlabel). cbn [obind].
      rewrite Hout. now rewrite <- app_assoc.
    + constructor; [| exact Hall].
      exists r, (emotion_of (label r)). repeat split; auto.
      now apply valid_label_resolves.
Qed.

(** C4. For [n] between 1 and 100, once the dataset is available and its
    labels are keys of the label mapping, [get_sample] returns exactly
    [min(n, total_size)] items, whichever loop [random.sample] takes; they
    come from distinct indices of the dataset, each with the text and the
    label of the record at its index and the emotion name the label mapping
    gives that label; on an empty dataset the result is the empty list. *)
Theorem get_sample_result (E : env) (params : GetSampleInput.t) (w w' : world)
    (dataset : table) :
  1 <= GetSampleInput.n params <= 100 ->
  _load_dataset E w = (Returned dataset, w') ->
  valid_rows (rows dataset) ->
  exists indices samples w'',
    get_sample E params w = (Returned (JArray samples), w'')
    /\ Z.of_nat (List.length samples)
       = Z.min (GetSampleInput.n params) (Z.of_nat (List.length (rows dataset)))
    /\ NoDup indices
    /\ Forall2 (drawn dataset) indices samples
    /\ (rows dataset = [] -> samples = []).
Proof.
  intros Hn Hload Hvalid.
  set (total := Z.of_nat (List.length (rows dataset))).
  destruct (random_sample_spec E total (Z.min (GetSampleInput.n params) total) w'
              ltac:(unfold total; lia))
    as (indices & w'' & Hsample & _ & _ & Hlen & Hnodup & Hbound).
  assert (Hbound' : Forall (fun i => (i < List.length (rows dataset))%nat) indices).
  { eapply Forall_impl; [| exact Hbound]. unfold total. cbn beta. intros i Hi. lia. }
  destruct (collect_samples_spec dataset Hvalid indices [] Hbound') as (samples & Hcollect & Hall).
  assert (Hsize : Z.of_nat (List.length samples) = Z.min (GetSampleInput.n params) total).
  { rewrite <- (Forall2_length Hall). exact Hlen. }
  exists indices, samples, w''. repeat split; auto.
  - unfold get_sample, try_except, get_sample_body, bind, lift, ret.
    rewrite Hload. fold total. unfold len_dataset. fold total.
    rewrite Hsample, Hcollect. reflexivity.
  - intros Hempty. unfold total in Hsize. rewrite Hempty in Hsize. cbn in Hsize.
    destruct samples; [reflexivity | cbn in Hsize; lia].
Qed.

Lemma get_sample_result_witness :
  exists indices samples w'',
    get_sample thirty_env {| GetSampleInput.n := 3 |} init_world
    = (Returned (JArray samples), w'')
    /\ Z.of_nat (List.length samples) = Z.min 3 30
    /\ NoDup indices
    /\ Forall2 (drawn thirty_table) indices samples
    /\ (thirty_rows = [] -> samples = []).
Proof.
  apply (get_sample_result thirty_env {| GetSampleInput.n := 3 |}
           init_world thirty_loaded thirty_table).
  - cbn. lia.
  - reflexivity.
  - unfold valid_rows, thirty_table, rows, thirty_rows. cbn [seq map].
    repeat (apply Forall_cons; [unfold valid_label; cbn; lia |]). apply Forall_nil.
Defined.

(** ** Input validation *)

Lemma get_sample_input_accepts (n : Z) :
  1 <= n <= 100 -> GetSampleInput.make n = Returned {| GetSampleInput.n := n |}.
Proof.
  intros H. unfold GetSampleInput.make.
  destruct (Z.leb_spec 1 n); [| lia]. destruct (Z.leb_spec n 100); [| lia]. reflexivity.
Qed.

Lemma get_sample_input_rejects (n : Z) :
  ~ (1 <= n <= 100) -> GetSampleInput.make n = Raised (ValidationError ["n"]).
Proof.
  intros H. unfold GetSampleInput.make.
  destruct (Z.leb_spec 1 n); destruct (Z.leb_spec n 100); try reflexivity. lia.
Qed.

Lemma search_input_rejects_query (is_space : ascii -> bool) (q : string) (l : Z) :
  ~ (1 <= PyStr.len (PyStr.strip is_space q) <= 200) ->
  exists fields,
    SearchTextInput.make is_space q l = Raised (ValidationError ("query" :: fields)).
Proof.
  intros H. unfold SearchTextInput.make.
  destruct (Z.leb_spec 1 (PyStr.len (PyStr.strip is_space q)));
    destruct (Z.leb_spec (PyStr.len (PyStr.strip is_space q)) 200);
    try lia; cbn [andb app]; eexists; reflexivity.
Qed.

Lemma search_input_accepts (is_space : ascii -> bool) (q : string) (l : Z) :
  1 <= PyStr.len (PyStr.strip is_space q) <= 200 -> 1 <= l <= 100 ->
  SearchTextInput.make is_space q l
  = Returned {| SearchTextInput.query := PyStr.strip is_space q;
                SearchTextInput.limit := l |}.
Proof.
  intros Hq Hl. unfold SearchTextInput.make.
  destruct (Z.leb_spec 1 (PyStr.len (PyStr.strip is_space q))); [| lia].
  destruct (Z.leb_spec (PyStr.len (PyStr.strip is_space q)) 200); [| lia].
  destruct (Z.leb_spec 1 l); [| lia]. destruct (Z.leb_spec l 100); [| lia].
  reflexivity.
Qed.

Lemma search_input_rejects_limit (is_space : ascii -> bool) (q : string) (l : Z) :
  ~ (1 <= l <= 100) ->
  exists fields,
    SearchTextInput.make is_space q l = Raised (ValidationError fields)
    /\ In "limit" fields.
Proof.
  intros H. unfold SearchTextInput.make.
  assert (Hl : (1 <=? l) && (l <=? 100) = false).
  { destruct (Z.leb_spec 1 l); destruct (Z.leb_spec l 100); try reflexivity. lia. }
  rewrite Hl.
  destruct ((1 <=? PyStr.len (PyStr.strip is_space q))
            && (PyStr.len (PyStr.strip is_space q) <=? 200));
    cbn [app]; eexists; (split; [reflexivity |]); cbn; tauto.
Qed.

Lemma search_input_accepted (is_space : ascii -> bool) (q : string) (l : Z) :
  (exists params, SearchTextInput.make is_space q l = Returned params)
  <-> (1 <= PyStr.len (PyStr.strip is_space q) <= 200 /\ 1 <= l <= 100).
Proof.
  split.
  - intros (params & H). split.
    + destruct (Z.le_gt_cases 1 (PyStr.len (PyStr.strip is_space q)));
        destruct (Z.le_gt_cases (PyStr.len (PyStr.strip is_space q)) 200);
        try lia;
        destruct (search_input_rejects_query is_space q l ltac:(lia)) as (fields & Hf);
        congruence.
    + destruct (Z.le_gt_cases 1 l); destruct (Z.le_gt_cases l 100); try lia;
        destruct (search_input_rejects_limit is_space q l ltac:(lia)) as (fields & Hf & _);
        congruence.
  - intros (Hq & Hl). eexists. now apply search_input_accepts.
Qed.

Lemma count_input_rejects (s : string) :
  ~ In s emotion_names ->
  CountByEmotionInput.make s = Raised (ValidationError ["emotion"]).
Proof.
  unfold emotion_names, CountByEmotionInput.make. cbn [map members value In].
  intros H. cbn [CountByEmotionInput.member_of members value].
  repeat match goal with
         | |- context [String.eqb ?a s] =>
             destruct (String.eqb_spec a s); [exfalso; apply H; tauto |]
         end.
  reflexivity.
Qed.

Lemma count_input_accepts (s : string) :
  In s emotion_names ->
  exists e, value e = s
    /\ CountByEmotionInput.make s = Returned {| CountByEmotionInput.emotion := e |}.
Proof.
  unfold emotion_names. cbn [map members value In].
  intros [<- | [<- | [<- | [<- | [<- | [<- | []]]]]]];
    eexists; (split; [| reflexivity]); reflexivity.
Qed.

(** C6. Parameters are checked when the input model is built, before the
    tool touches the dataset.  [get_sample]: [n = 0] and [n = 101] are
    rejected, [n = 1] and [n = 100] accepted, and [n] is accepted exactly
    when it lies in [1, 100].  [search_text]: a query that is empty once
    stripped is rejected, as is one of 201 characters once stripped; a query
    of 1 to 200 characters once stripped is accepted with a limit in
    [1, 100]; a limit outside [1, 100] is rejected, 0 and 101 among them,
    and the model is built exactly when the stripped query has 1 to 200
    characters and the limit lies in [1, 100].  [count_by_emotion]: a name
    outside the six is rejected and each of the six is accepted.  A
    rejected call raises the validation error and leaves the world as it
    was: nothing was loaded. *)
Theorem parameters_validated_before_data_access (is_space : ascii -> bool) :
  (GetSampleInput.make 0 = Raised (ValidationError ["n"])
   /\ GetSampleInput.make 101 = Raised (ValidationError ["n"])
   /\ GetSampleInput.make 1 = Returned {| GetSampleInput.n := 1 |}
   /\ GetSampleInput.make 100 = Returned {| GetSampleInput.n := 100 |}
   /\ forall n, (exists params, GetSampleInput.make n = Returned params) <-> 1 <= n <= 100)
  /\ ((forall q l, PyStr.strip is_space q = "" ->
         exists fields,
           SearchTextInput.make is_space q l = Raised (ValidationError ("query" :: fields)))
      /\ (forall q l, PyStr.len (PyStr.strip is_space q) = 201 ->
         exists fields,
           SearchTextInput.make is_space q l = Raised (ValidationError ("query" :: fields)))
      /\ (forall q l, 1 <= PyStr.len (PyStr.strip is_space q) <= 200 -> 1 <= l <= 100 ->
         SearchTextInput.make is_space q l
         = Returned {| SearchTextInput.query := PyStr.strip is_space q;
                       SearchTextInput.limit := l |})
      /\ (forall q l, ~ (1 <= l <= 100) ->
         exists fields,
           SearchTextInput.make is_space q l = Raised (ValidationError fields)
           /\ In "limit" fields)
      /\ (forall q l,
         (exists params, SearchTextInput.make is_space q l = Returned params)
         <-> (1 <= PyStr.len (PyStr.strip is_space q) <= 200 /\ 1 <= l <= 100)))
  /\ ((forall s, ~ In s emotion_names ->
         CountByEmotionInput.make s = Raised (ValidationError ["emotion"]))
      /\ (forall s, In s emotion_names ->
         exists e, value e = s
           /\ CountByEmotionInput.make s
              = Returned {| CountByEmotionInput.emotion := e |}))
  /\ ((forall E n w, ~ (1 <= n <= 100) ->
         call_get_sample E n w = (Raised (ValidationError ["n"]), w))
      /\ (forall E q l w, ~ (1 <= PyStr.len (PyStr.strip is_space q) <= 200) ->
         exists fields,
           call_search_text is_space E q l w
           = (Raised (ValidationError ("query" :: fields)), w))
      /\ (forall E s w, ~ In s emotion_names ->
         call_count_by_emotion E s w = (Raised (ValidationError ["emotion"]), w))
      /\ (forall E q l w, ~ (1 <= l <= 100) ->
         exists fields,
           call_search_text is_space E q l w = (Raised (ValidationError fields), w)
           /\ In "limit" fields)).
Proof.
  split; [| split; [| split]].
  - do 4 (split; [reflexivity |]). intros n. split.
    + intros [params H].
      destruct (Z.le_gt_cases 1 n), (Z.le_gt_cases n 100); try lia;
        rewrite get_sample_input_rejects in H by lia; discriminate.
    + intros Hn. eexists. now apply get_sample_input_accepts.
  - split; [| split; [| split; [| split]]].
    + intros q l H. apply search_input_rejects_query. rewrite H. cbn. lia.
    + intros q l H. apply search_input_rejects_query. lia.
    + intros q l. apply search_input_accepts.
    + intros q l. apply search_input_rejects_limit.
    + intros q l. apply search_input_accepted.
  - split; [exact count_input_rejects | exact count_input_accepts].
  - split; [| split; [| split]].
    + intros E n w H. unfold call_get_sample, bind, lift.
      now rewrite (get_sample_input_rejects n H).
    + intros E q l w H. unfold call_search_text, bind, lift.
      destruct (search_input_rejects_query is_space q l H) as [fields ->].
      now exists fields.
    + intros E s w H. unfold call_count_by_emotion, bind, lift.
      now rewrite (count_input_rejects s H).
    + intros E q l w H. unfold call_search_text, bind, lift.
      destruct (search_input_rejects_limit is_space q l H) as (fields & -> & Hin).
      now exists fields.
Qed.

Lemma parameters_validated_before_data_access_witness :
  (exists fields,
     SearchTextInput.make PyStr.unicode_space (str_mul "x" 201) 10
     = Raised (ValidationError ("query" :: fields)))
  /\ (exists fields,
       SearchTextInput.make PyStr.unicode_space "   " 10
       = Raised (ValidationError ("query" :: fields)))
  /\ SearchTextInput.make PyStr.unicode_space " happy " 10
     = Returned {| SearchTextInput.query := "happy"; SearchTextInput.limit := 10 |}
  /\ CountByEmotionInput.make "excited" = Raised (ValidationError ["emotion"])
  /\ call_get_sample tiny_env 101 init_world
     = (Raised (ValidationError ["n"]), init_world)
  /\ (exists fields,
       SearchTextInput.make PyStr.unicode_space "happy" 0
       = Raised (ValidationError fields) /\ In "limit" fields)
  /\ (exists fields,
       call_search_text PyStr.unicode_space tiny_env "happy" 101 init_world
       = (Raised (ValidationError fields), init_world) /\ In "limit" fields).
Proof.
  destruct (parameters_validated_before_data_access PyStr.unicode_space)
    as (_ & (Hempty & Hlong & Hok & Hlimit & _) & (Hname & _)
        & (Hcall & _ & _ & Hcall_limit)).
  split; [apply Hlong; reflexivity |].
  split; [apply Hempty; reflexivity |].
  split; [apply (Hok " happy " 10); [vm_compute; split; discriminate | lia] |].
  split; [apply Hname |].
  - unfold emotion_names. cbn. intros H.
    repeat (destruct H as [H | H]; [discriminate H |]). exact H.
  - split; [apply Hcall; lia |].
    split; [apply Hlimit; lia | apply Hcall_limit; lia].
Defined.

(** ** Faults at the tool boundary *)

Lemma caught (body : M json) (prefix : string) (w : world) :
  exists j w',
    try_except body (fun e => ret (error_payload (prefix ++ str_exn e))) w
    = (Returned j, w')
    /\ forall e, fst (body w) = Raised e -> j = error_payload (prefix ++ str_exn e).
Proof.
  unfold try_except, ret. destruct (body w) as [[j | e] w1]; cbn [fst].
  - exists j, w1. split; [reflexivity | discriminate].
  - exists (error_payload (prefix ++ str_exn e)), w1.
    split; [reflexivity | now intros e' [= <-]].
Qed.

Lemma load_failure (E : env) (w : world) (msg : string) :
  DATASET w = None -> source E (loads w) = LoadFailed msg ->
  _load_dataset E w
  = (Raised (LoadError msg),
     {| DATASET := None; loads := S (loads w); draws := draws w |}).
Proof. intros Hd Hs. unfold _load_dataset. now rewrite Hd, Hs. Qed.

Lemma invalid_label_raises (l : Z) :
  ~ valid_label l ->
  getitem_int EMOTION_LABELS l = Raised (KeyError (PyStr.of_int l)).
Proof.
  unfold valid_label. cbn -[Z.eqb]. intros H.
  repeat match goal with
         | |- context [Z.eqb ?a l] =>
             destruct (Z.eqb_spec a l); [exfalso; apply H; tauto |]
         end.
  reflexivity.
Qed.

Lemma valid_label_dec (l : Z) : {valid_label l} + {~ valid_label l}.
Proof. unfold valid_label. apply in_dec, Z.eq_dec. Qed.

(** A record with an unknown label makes the tally raise [KeyError]. *)
Lemma tally_unknown : forall items a0 a1 a2 a3 a4 a5,
  ~ valid_rows items ->
  exists key,
    tally items [("sadness", a0); ("joy", a1); ("love", a2);
                 ("anger", a3); ("fear", a4); ("surprise", a5)]
    = Raised (KeyError key).
Proof.
  induction items as [| item rest IH]; intros a0 a1 a2 a3 a4 a5 Hbad.
  - exfalso. apply Hbad. constructor.
  - cbn [tally]. destruct (valid_label_dec (label item)) as [Hitem | Hitem].
    + assert (Hrest : ~ valid_rows rest) by (intros H; apply Hbad; now constructor).
      unfold valid_label in Hitem. cbn in Hitem.
      destruct Hitem as [<- | [<- | [<- | [<- | [<- | [<- | []]]]]]];
        cbn -[tally Z.add]; now apply IH.
    + rewrite (invalid_label_raises _ Hitem). cbn [obind]. eexists; reflexivity.
Qed.

(** C5, as the code has it.  Every fault raised while a tool runs is caught
    by the tool and returned as the payload [{error: message}] alone: the
    four tools always return, and when the body of a tool raises, the
    result is exactly the error payload built from that exception.  A
    failed load is such a fault, and so is a record whose label is not a key
    of the label mapping.  (A parameter that fails validation is raised by
    the input model, before the tool is entered.) *)
Theorem tool_faults_become_error_payloads (E : env) (w : world) :
  (forall params, exists j w',
      get_sample E params w = (Returned j, w')
      /\ forall e, fst (get_sample_body E params w) = Raised e ->
                   j = error_payload ("Failed to get samples: " ++ str_exn e))
  /\ (forall params, exists j w',
      count_by_emotion E params w = (Returned j, w')
      /\ forall e, fst (count_by_emotion_body E params w) = Raised e ->
                   j = error_payload ("Failed to count by emotion: " ++ str_exn e))
  /\ (forall params, exists j w',
      search_text E params w = (Returned j, w')
      /\ forall e, fst (search_text_body E params w) = Raised e ->
                   j = error_payload ("Failed to search text: " ++ str_exn e))
  /\ (exists j w',
      analyze_emotion_distribution E w = (Returned j, w')
      /\ forall e, fst (analyze_emotion_distribution_body E w) = Raised e ->
                   j = error_payload ("Failed to analyze distribution: " ++ str_exn e))
  /\ (forall msg, DATASET w = None -> source E (loads w) = LoadFailed msg ->
      (forall params, fst (get_sample E params w)
         = Returned (error_payload ("Failed to get samples: " ++ msg)))
      /\ (forall params, fst (count_by_emotion E params w)
         = Returned (error_payload ("Failed to count by emotion: " ++ msg)))
      /\ (forall params, fst (search_text E params w)
         = Returned (error_payload ("Failed to search text: " ++ msg)))
      /\ fst (analyze_emotion_distribution E w)
         = Returned (error_payload ("Failed to analyze distribution: " ++ msg)))
  /\ (forall dataset w', _load_dataset E w = (Returned dataset, w') ->
      ~ valid_rows (rows dataset) ->
      exists key,
        analyze_emotion_distribution E w
        = (Returned (error_payload ("Failed to analyze distribution: " ++ key)), w')).
Proof.
  split; [intros params; apply caught |].
  split; [intros params; apply caught |].
  split; [intros params; apply caught |].
  split; [apply caught |].
  split.
  - intros msg Hd Hs. pose proof (load_failure E w msg Hd Hs) as Hload.
    repeat split; intros;
      unfold get_sample, count_by_emotion, search_text, analyze_emotion_distribution,
        try_except, get_sample_body, count_by_emotion_body, search_text_body,
        analyze_emotion_distribution_body, bind;
      rewrite Hload; reflexivity.
  - intros dataset w' Hload Hbad.
    destruct (tally_unknown (rows dataset) 0 0 0 0 0 0 Hbad) as [key Hkey].
    exists key.
    unfold analyze_emotion_distribution, try_except,
      analyze_emotion_distribution_body, bind, lift, ret.
    rewrite Hload.
    change zero_counts with [("sadness", 0); ("joy", 0); ("love", 0);
                             ("anger", 0); ("fear", 0); ("surprise", 0)].
    rewrite Hkey. reflexivity.
Qed.

Lemma tool_faults_become_error_payloads_witness :
  fst (get_sample offline_env {| GetSampleInput.n := 3 |} init_world)
  = Returned (error_payload "Failed to get samples: offline").
Proof.
  destruct (tool_faults_become_error_payloads offline_env init_world)
    as (_ & _ & _ & _ & Hload & _).
  destruct (Hload "offline" eq_refl eq_refl) as (Hsample & _).
  exact (Hsample {| GetSampleInput.n := 3 |}).
Defined.

(** C5, as stated, fails: a parameter that fails validation is raised by the
    input model when the call is made; the call returns no payload at all. *)
Lemma validation_failure_is_not_a_payload :
  call_get_sample tiny_env 0 init_world = (Raised (ValidationError ["n"]), init_world)
  /\ ~ (exists j, fst (call_get_sample tiny_env 0 init_world) = Returned j).
Proof.
  split; [reflexivity |]. intros [j H]. discriminate H.
Qed.

(** ** Repeated calls *)

Lemma count_by_emotion_again (E : env) (params : CountByEmotionInput.t)
    (w w' : world) (dataset : table) :
  _load_dataset E w = (Returned dataset, w') ->
  exists r,
    count_by_emotion E params w = (r, w') /\ count_by_emotion E params w' = (r, w').
Proof.
  intros Hload. pose proof (load_again E w w' dataset Hload) as Hload'.
  destruct params as [e].
  destruct (count_by_emotion_loaded E e w w' dataset Hload) as (pct & Hres & _).
  eexists. split; [exact Hres |]. rewrite <- Hres.
  unfold count_by_emotion, try_except, count_by_emotion_body, bind.
  now rewrite Hload, Hload'.
Qed.

Lemma analyze_again (E : env) (w w' : world) (dataset : table) :
  _load_dataset E w = (Returned dataset, w') ->
  exists r,
    analyze_emotion_distribution E w = (r, w')
    /\ analyze_emotion_distribution E w' = (r, w').
Proof.
  intros Hload. pose proof (load_again E w w' dataset Hload) as Hload'.
  assert (Hsame : analyze_emotion_distribution E w' = analyze_emotion_distribution E w).
  { unfold analyze_emotion_distribution, try_except,
      analyze_emotion_distribution_body, bind.
    now rewrite Hload, Hload'. }
  rewrite Hsame.
  assert (Hworld : snd (analyze_emotion_distribution E w) = w').
  { unfold analyze_emotion_distribution, try_except,
      analyze_emotion_distribution_body, bind, lift, ret.
    rewrite Hload. destruct (tally (rows dataset) zero_counts); [| reflexivity].
    destruct (build_distribution _ _ _); reflexivity. }
  destruct (analyze_emotion_distribution E w) as [r w1]. cbn [snd] in Hworld. subst w1.
  now exists r.
Qed.

(** C9. While the dataset is unchanged, a call of [count_by_emotion] and
    the same call repeated return the same result, and so do a call of
    [analyze_emotion_distribution] and its repetition; the world they
    leave is the one they are repeated in, so that any later repetition
    agrees too.  [get_sample] has no such property: two successive calls
    with the same [n] can differ. *)
Theorem repeated_calls_return_identical_results (E : env) (w w' : world)
    (dataset : table) :
  _load_dataset E w = (Returned dataset, w') ->
  (forall params, exists r,
      count_by_emotion E params w = (r, w')
      /\ count_by_emotion E params w' = (r, w'))
  /\ (exists r,
      analyze_emotion_distribution E w = (r, w')
      /\ analyze_emotion_distribution E w' = (r, w'))
  /\ (exists E0 params w0 r1 w1 r2 w2,
      get_sample E0 params w0 = (r1, w1)
      /\ get_sample E0 params w1 = (r2, w2)
      /\ r1 <> r2).
Proof.
  intros Hload. split; [| split].
  - intros params. now apply (count_by_emotion_again E params w w' dataset).
  - now apply (analyze_again E w w' dataset).
  - exists tiny_env, {| GetSampleInput.n := 1 |}, init_world.
    eexists; eexists; eexists; eexists.
    split; [vm_compute; reflexivity |]. split; [vm_compute; reflexivity |].
    discriminate.
Qed.

Lemma repeated_calls_return_identical_results_witness :
  (forall params, exists r,
      count_by_emotion tiny_env params init_world = (r, tiny_loaded)
      /\ count_by_emotion tiny_env params tiny_loaded = (r, tiny_loaded))
  /\ (exists r,
      analyze_emotion_distribution tiny_env init_world = (r, tiny_loaded)
      /\ analyze_emotion_distribution tiny_env tiny_loaded = (r, tiny_loaded))
  /\ (exists E0 params w0 r1 w1 r2 w2,
      get_sample E0 params w0 = (r1, w1)
      /\ get_sample E0 params w1 = (r2, w2)
      /\ r1 <> r2).
Proof.
  exact (repeated_calls_return_identical_results tiny_env init_world tiny_loaded
           tiny_table eq_refl).
Defined.


(** * Further properties of the tools *)

(** ** [search_text]: what the scan examines *)

(** The scan resolves the labels of the records it returns and of no
    other record. *)
Lemma search_loop_hits (q : string) (limit : Z) : forall items results,
  Z.of_nat (List.length results) < limit ->
  valid_rows (firstn (Z.to_nat limit - List.length results)
                (filter (matches q) items)) ->
  search_loop (PyStr.lower q) limit items results
  = Returned (results
              ++ map entry (firstn (Z.to_nat limit - List.length results)
                              (filter (matches q) items)))%list.
Proof.
  induction items as [| item rest IH]; intros results Hlen Hvalid.
  - cbn. now rewrite firstn_nil, app_nil_r.
  - cbn [search_loop filter] in *.
    change (PyStr.contains (PyStr.lower q) (PyStr.lower (text item)))
      with (matches q item).
    destruct (matches q item); [| now apply IH].
    assert (Hk : (Z.to_nat limit - List.length results
                  = S (Z.to_nat limit - S (List.length results)))%nat) by lia.
    rewrite Hk in *. cbn [firstn map] in *.
    inversion Hvalid as [| ? ? Hitem Hrest]; subst.
    rewrite (valid_label_resolves _ Hitem). cbn [obind].
    change (sample_entry item (emotion_of (label item))) with (entry item).
    assert (Hlen' : List.length (results ++ [entry item]) = S (List.length results))
      by (rewrite length_app; cbn; lia).
    destruct (Z.of_nat (List.length (results ++ [entry item])) >=? limit) eqn:Hc.
    + apply Z.geb_le in Hc.
      replace (Z.to_nat limit - S (List.length results))%nat with 0%nat by lia.
      reflexivity.
    + assert (Hlt : Z.of_nat (List.length (results ++ [entry item])) < limit).
      { destruct (Z.lt_ge_cases (Z.of_nat (List.length (results ++ [entry item]))) limit)
          as [| Hge]; [assumption |].
        apply Z.geb_le in Hge. congruence. }
      rewrite IH by (first [exact Hlt | rewrite Hlen'; exact Hrest]).
      rewrite Hlen'. now rewrite <- app_assoc.
Qed.

(** The first returned record whose label is unknown makes the scan raise
    [KeyError] on that label. *)
Lemma search_loop_unknown (q : string) (limit : Z) (r : record) :
  ~ valid_label (label r) ->
  forall items results good later,
    Z.of_nat (List.length results) < limit ->
    firstn (Z.to_nat limit - List.length results) (filter (matches q) items)
    = (good ++ r :: later)%list ->
    valid_rows good ->
    search_loop (PyStr.lower q) limit items results
    = Raised (KeyError (PyStr.of_int (label r))).
Proof.
  intros Hr. induction items as [| item rest IH]; intros results good later Hlen Hhits Hgood.
  - cbn in Hhits. rewrite firstn_nil in Hhits. destruct good; discriminate.
  - cbn [search_loop filter] in *.
    change (PyStr.contains (PyStr.lower q) (PyStr.lower (text item)))
      with (matches q item).
    destruct (matches q item); [| now apply (IH results good later)].
    assert (Hk : (Z.to_nat limit - List.length results
                  = S (Z.to_nat limit - S (List.length results)))%nat) by lia.
    rewrite Hk in Hhits. cbn [firstn] in Hhits.
    destruct good as [| g good].
    + cbn [app] in Hhits. injection Hhits as -> _.
      now rewrite (invalid_label_raises _ Hr).
    + cbn [app] in Hhits. injection Hhits as -> Hrest.
      inversion Hgood as [| ? ? Hitem Hgood']; subst.
      rewrite (valid_label_resolves _ Hitem). cbn [obind].
      assert (Hlen' : List.length (results ++ [sample_entry g (emotion_of (label g))])
                      = S (List.length results))
        by (rewrite length_app; cbn; lia).
      assert (Hmore : (Z.to_nat limit - S (List.length results) <> 0)%nat).
      { intros H0. rewrite H0 in Hrest. cbn in Hrest. destruct good; discriminate. }
      destruct (Z.of_nat (List.length (results ++ [sample_entry g (emotion_of (label g))]))
                >=? limit) eqn:Hc.
      * apply Z.geb_le in Hc. lia.
      * apply (IH _ good later); [lia | now rewrite Hlen' | assumption].
Qed.

Lemma search_text_on_hits (E : env) (params : SearchTextInput.t)
    (w w' : world) (dataset : table) :
  1 <= SearchTextInput.limit params ->
  _load_dataset E w = (Returned dataset, w') ->
  valid_rows (hits (SearchTextInput.query params) (SearchTextInput.limit params)
                (rows dataset)) ->
  search_text E params w
  = (Returned (search_payload (SearchTextInput.query params)
                 (hits (SearchTextInput.query params) (SearchTextInput.limit params)
                    (rows dataset))), w').
Proof.
  intros Hlimit Hload Hvalid. unfold hits in *.
  unfold search_text, try_except, search_text_body, bind, lift, ret.
  rewrite Hload.
  rewrite (search_loop_hits _ _ (rows dataset) [])
    by (cbn [List.length]; rewrite ?Nat.sub_0_r; first [lia | assumption]).
  cbn [List.length app]. rewrite Nat.sub_0_r. unfold search_payload.
  now rewrite length_map.
Qed.

(** X1. [search_text] resolves the labels of the records it returns and of
    no others: when the first [limit] matches carry valid labels the search
    succeeds, whatever the labels of the records that do not match or that
    lie beyond the [limit]-th match. *)
Theorem search_text_resolves_only_hits (E : env) (params : SearchTextInput.t)
    (w w' : world) (dataset : table) :
  1 <= SearchTextInput.limit params ->
  _load_dataset E w = (Returned dataset, w') ->
  valid_rows (hits (SearchTextInput.query params) (SearchTextInput.limit params)
                (rows dataset)) ->
  search_text E params w
  = (Returned (search_payload (SearchTextInput.query params)
                 (hits (SearchTextInput.query params) (SearchTextInput.limit params)
                    (rows dataset))), w').
Proof. exact (search_text_on_hits E params w w' dataset). Qed.

Lemma search_text_resolves_only_hits_witness :
  search_text odd_env {| SearchTextInput.query := "happy"; SearchTextInput.limit := 1 |}
    init_world
  = (Returned (search_payload "happy" [ {| text := "so happy"; label := 1 |} ]),
     odd_loaded).
Proof.
  refine (search_text_resolves_only_hits odd_env
            {| SearchTextInput.query := "happy"; SearchTextInput.limit := 1 |}
            init_world odd_loaded odd_table _ eq_refl _).
  - cbn. lia.
  - apply Forall_cons; [unfold valid_label; cbn; lia | apply Forall_nil].
Defined.

(** X2. When one of the first [limit] matches carries a label that is no
    key of the label mapping, [search_text] returns the error payload
    naming the first such label, and nothing of the matches found before
    it. *)
Theorem search_text_unknown_label (E : env) (params : SearchTextInput.t)
    (w w' : world) (dataset : table) (good later : list record) (r : record) :
  1 <= SearchTextInput.limit params ->
  _load_dataset E w = (Returned dataset, w') ->
  hits (SearchTextInput.query params) (SearchTextInput.limit params) (rows dataset)
  = (good ++ r :: later)%list ->
  valid_rows good ->
  ~ valid_label (label r) ->
  search_text E params w
  = (Returned (error_payload ("Failed to search text: " ++ PyStr.of_int (label r))), w').
Proof.
  intros Hlimit Hload Hhits Hgood Hr. unfold hits in Hhits.
  unfold search_text, try_except, search_text_body, bind, lift, ret.
  rewrite Hload.
  rewrite (search_loop_unknown _ _ r Hr (rows dataset) [] good later);
    [reflexivity | cbn; lia | cbn [List.length]; now rewrite Nat.sub_0_r | assumption].
Qed.

Lemma search_text_unknown_label_witness :
  search_text odd_env {| SearchTextInput.query := "happy"; SearchTextInput.limit := 2 |}
    init_world
  = (Returned (error_payload "Failed to search text: 9"), odd_loaded).
Proof.
  refine (search_text_unknown_label odd_env
            {| SearchTextInput.query := "happy"; SearchTextInput.limit := 2 |}
            init_world odd_loaded odd_table
            [ {| text := "so happy"; label := 1 |} ] []
            {| text := "Happy again"; label := 9 |} _ eq_refl eq_refl _ _).
  - cbn. lia.
  - apply Forall_cons; [unfold valid_label; cbn; lia | apply Forall_nil].
  - unfold valid_label. cbn. lia.
Defined.

Lemma Forall_firstn {A} (P : A -> Prop) (k : nat) (l : list A) :
  Forall P l -> Forall P (firstn k l).
Proof.
  rewrite !Forall_forall. intros H x Hx. apply H. now apply In_firstn in Hx.
Qed.

Lemma hits_smaller_limit (q : string) (l1 l2 : Z) (rs : list record) :
  l1 <= l2 -> hits q l1 rs = firstn (Z.to_nat l1) (hits q l2 rs).
Proof.
  intros H. unfold hits. rewrite firstn_firstn. f_equal. lia.
Qed.

(** X3. Raising the limit only appends results: the results for a limit
    [l1] are the first [l1] results for any larger limit [l2]. *)
Theorem search_text_limit_monotone (E : env) (q : string) (l1 l2 : Z)
    (w w' : world) (dataset : table) :
  1 <= l1 <= l2 ->
  _load_dataset E w = (Returned dataset, w') ->
  valid_rows (hits q l2 (rows dataset)) ->
  search_text E {| SearchTextInput.query := q; SearchTextInput.limit := l2 |} w
  = (Returned (search_payload q (hits q l2 (rows dataset))), w')
  /\ search_text E {| SearchTextInput.query := q; SearchTextInput.limit := l1 |} w
     = (Returned (search_payload q (firstn (Z.to_nat l1) (hits q l2 (rows dataset)))), w').
Proof.
  intros Hl Hload Hvalid. split.
  - apply (search_text_on_hits E
             {| SearchTextInput.query := q; SearchTextInput.limit := l2 |} w w' dataset);
      cbn; [lia | assumption | assumption].
  - rewrite <- (hits_smaller_limit q l1 l2) by lia.
    apply (search_text_on_hits E
             {| SearchTextInput.query := q; SearchTextInput.limit := l1 |} w w' dataset);
      cbn [SearchTextInput.query SearchTextInput.limit]; [lia | assumption |].
    rewrite (hits_smaller_limit q l1 l2) by lia. now apply Forall_firstn.
Qed.

Lemma search_text_limit_monotone_witness :
  search_text tiny_env {| SearchTextInput.query := "happy"; SearchTextInput.limit := 2 |}
    init_world
  = (Returned (search_payload "happy"
                 [ {| text := "i am so happy"; label := 1 |};
                   {| text := "i am happy again"; label := 1 |} ]), tiny_loaded)
  /\ search_text tiny_env {| SearchTextInput.query := "happy"; SearchTextInput.limit := 1 |}
       init_world
     = (Returned (search_payload "happy" [ {| text := "i am so happy"; label := 1 |} ]),
        tiny_loaded).
Proof.
  refine (search_text_limit_monotone tiny_env "happy" 1 2 init_world tiny_loaded
            tiny_table _ eq_refl _).
  - lia.
  - repeat (apply Forall_cons; [unfold valid_label; cbn; lia |]). apply Forall_nil.
Defined.

Lemma lower_char_idempotent (c : ascii) :
  PyStr.lower_char (PyStr.lower_char c) = PyStr.lower_char c.
Proof. destruct c as [[] [] [] [] [] [] [] []]; reflexivity. Qed.

Lemma lower_idempotent (s : string) : PyStr.lower (PyStr.lower s) = PyStr.lower s.
Proof.
  induction s as [| c s IH]; [reflexivity |].
  cbn [PyStr.lower]. now rewrite lower_char_idempotent, IH.
Qed.

(** X4. The search ignores the case of the query: searching for a query
    and for its lowercase form give the same outcome but for the query
    echoed back, be it the same results and count or the same error. *)
Theorem search_text_ignores_query_case (E : env) (q : string) (limit : Z) (w : world) :
  let asked := search_text E {| SearchTextInput.query := q;
                                SearchTextInput.limit := limit |} w in
  let lowered := search_text E {| SearchTextInput.query := PyStr.lower q;
                                  SearchTextInput.limit := limit |} w in
  snd asked = snd lowered
  /\ ((exists found,
         fst asked = Returned (JObject [("query", JString q);
                                        ("count", JInt (Z.of_nat (List.length found)));
                                        ("results", JArray found)])
         /\ fst lowered = Returned (JObject [("query", JString (PyStr.lower q));
                                             ("count", JInt (Z.of_nat (List.length found)));
                                             ("results", JArray found)]))
      \/ (exists msg,
            fst asked = Returned (error_payload msg)
            /\ fst lowered = Returned (error_payload msg))).
Proof.
  cbn zeta. unfold search_text, try_except, search_text_body, bind, lift, ret.
  cbn [SearchTextInput.query SearchTextInput.limit].
  rewrite lower_idempotent.
  destruct (_load_dataset E w) as [[dataset | e] w1]; cbn [fst snd].
  - destruct (search_loop (PyStr.lower q) limit (rows dataset) []) as [found | e];
      cbn [fst snd]; (split; [reflexivity |]).
    + left. now exists found.
    + right. eexists. split; reflexivity.
  - split; [reflexivity |]. right. eexists. split; reflexivity.
Qed.

(** ** [count_by_emotion] and [analyze_emotion_distribution] on any dataset *)

Lemma invalid_label_unresolved (l : Z) : ~ valid_label l -> resolve l = None.
Proof. intros H. unfold resolve. now rewrite (invalid_label_raises l H). Qed.

Lemma valid_label_resolved (l : Z) : valid_label l -> resolve l = Some (emotion_of l).
Proof. intros H. unfold resolve. now rewrite (valid_label_resolves l H). Qed.

(** Every record with a valid label is counted under exactly one name, and
    a record with an unknown label under none. *)
Lemma count_of_partition_any (rs : list record) :
  sum_Z (map (fun e => count_of (value e) rs) members)
  = Z.of_nat (List.length (filter has_valid_label rs)).
Proof.
  induction rs as [| r rs IH]; [reflexivity |].
  cbn [map members sum_Z fold_right value filter] in *.
  rewrite !count_of_cons. unfold resolves_to, has_valid_label.
  destruct (valid_label_dec (label r)) as [Hr | Hr].
  - unfold valid_label in Hr. cbn in Hr.
    destruct Hr as [<- | [<- | [<- | [<- | [<- | [<- | []]]]]]];
      cbn -[count_of Z.of_nat Z.add has_valid_label filter];
      cbn [List.length]; fold has_valid_label; lia.
  - rewrite (invalid_label_unresolved _ Hr). fold has_valid_label. lia.
Qed.

(** X5. [count_by_emotion] never resolves a record's label, so it answers
    on any dataset: the six results carry the size of the dataset as their
    total, and their counts add up to the number of records whose label is a
    key of the label mapping (records with an unknown label are counted
    under no emotion). *)
Theorem counts_cover_valid_labels (E : env) (w w' : world) (dataset : table) :
  _load_dataset E w = (Returned dataset, w') ->
  exists counts,
    Forall2
      (fun e c =>
         exists pct,
           count_by_emotion E {| CountByEmotionInput.emotion := e |} w
           = (Returned (JObject [("emotion", JString (value e));
                                 ("count", JInt c);
                                 ("total", JInt (Z.of_nat (List.length (rows dataset))));
                                 ("percentage", pct)]), w'))
      members counts
    /\ sum_Z counts = Z.of_nat (List.length (filter has_valid_label (rows dataset)))
    /\ sum_Z counts <= Z.of_nat (List.length (rows dataset)).
Proof.
  intros Hload.
  exists (map (fun e => count_of (value e) (rows dataset)) members).
  split; [| split].
  - unfold members. cbn [map].
    repeat constructor;
      match goal with
      | |- exists _, count_by_emotion _ {| CountByEmotionInput.emotion := ?e |} _ = _ =>
          destruct (count_by_emotion_loaded E e w w' dataset Hload) as (pct & -> & _);
          now exists pct
      end.
  - apply count_of_partition_any.
  - rewrite count_of_partition_any.
    apply Nat2Z.inj_le, filter_length_le.
Qed.

Lemma counts_cover_valid_labels_witness :
  exists counts,
    Forall2
      (fun e c =>
         exists pct,
           count_by_emotion odd_env {| CountByEmotionInput.emotion := e |} init_world
           = (Returned (JObject [("emotion", JString (value e));
                                 ("count", JInt c);
                                 ("total", JInt 3);
                                 ("percentage", pct)]), odd_loaded))
      members counts
    /\ sum_Z counts = 1
    /\ sum_Z counts <= 3.
Proof.
  exact (counts_cover_valid_labels odd_env init_world odd_loaded odd_table eq_refl).
Defined.

(** The tally raises at the first record whose label is unknown. *)
Lemma tally_first_unknown (r : record) (later : list record) :
  ~ valid_label (label r) ->
  forall good a0 a1 a2 a3 a4 a5,
    valid_rows good ->
    tally (good ++ r :: later)
      [("sadness", a0); ("joy", a1); ("love", a2);
       ("anger", a3); ("fear", a4); ("surprise", a5)]
    = Raised (KeyError (PyStr.of_int (label r))).
Proof.
  intros Hr. induction good as [| item good IH]; intros a0 a1 a2 a3 a4 a5 Hgood.
  - cbn [app tally]. now rewrite (invalid_label_raises _ Hr).
  - inversion Hgood as [| ? ? Hitem Hgood']; subst.
    cbn [app tally]. unfold valid_label in Hitem. cbn in Hitem.
    destruct Hitem as [<- | [<- | [<- | [<- | [<- | [<- | []]]]]]];
      cbn -[tally Z.add]; now apply IH.
Qed.

(** X6. [analyze_emotion_distribution] resolves every record: on a dataset
    holding a label that is no key of the label mapping it returns the
    error payload naming the first such label, without any distribution. *)
Theorem analyze_reports_first_unknown_label (E : env) (w w' : world)
    (dataset : table) (good later : list record) (r : record) :
  _load_dataset E w = (Returned dataset, w') ->
  rows dataset = (good ++ r :: later)%list ->
  valid_rows good ->
  ~ valid_label (label r) ->
  analyze_emotion_distribution E w
  = (Returned (error_payload
                 ("Failed to analyze distribution: " ++ PyStr.of_int (label r))), w').
Proof.
  intros Hload Hrows Hgood Hr.
  unfold analyze_emotion_distribution, try_except,
    analyze_emotion_distribution_body, bind, lift, ret.
  rewrite Hload, Hrows.
  change zero_counts with [("sadness", 0); ("joy", 0); ("love", 0);
                           ("anger", 0); ("fear", 0); ("surprise", 0)].
  now rewrite (tally_first_unknown r later Hr good 0 0 0 0 0 0 Hgood).
Qed.

Lemma analyze_reports_first_unknown_label_witness :
  analyze_emotion_distribution odd_env init_world
  = (Returned (error_payload "Failed to analyze distribution: 7"), odd_loaded).
Proof.
  refine (analyze_reports_first_unknown_label odd_env init_world odd_loaded odd_table
            [ {| text := "so happy"; label := 1 |} ]
            [ {| text := "Happy again"; label := 9 |} ]
            {| text := "odd one"; label := 7 |} eq_refl eq_refl _ _).
  - apply Forall_cons; [unfold valid_label; cbn; lia | apply Forall_nil].
  - unfold valid_label. cbn. lia.
Defined.

Lemma is_percentage_unique (count total : Z) (p1 p2 : json) :
  is_percentage count total p1 -> is_percentage count total p2 -> p1 = p2.
Proof.
  unfold is_percentage. destruct (total >? 0); [| congruence].
  intros (ratio1 & rounded1 & H1 & H1' & ->) (ratio2 & rounded2 & H2 & H2' & ->).
  congruence.
Qed.





(** ** The percentage at its ends *)

Lemma div_eucl_multiple (t c : Z) : 0 < t -> Z.div_eucl (t * c) t = (c, 0).
Proof.
  intros Ht. pose proof (Z_div_mod (t * c) t ltac:(lia)) as H.
  destruct (Z.div_eucl (t * c) t) as [q r]. destruct H as [Heq Hr].
  assert (Hq : q = c) by nia. subst q. f_equal. lia.
Qed.

Lemma div_core_same (t : Z) :
  0 < t ->
  SFdiv_core_binary PyFloat.prec PyFloat.emax t 0 t 0 = (2 ^ 53, -53, loc_Exact).
Proof.
  intros Ht. unfold SFdiv_core_binary.
  replace (Zdigits2 t + 0 - (Zdigits2 t + 0)) with 0 by lia.
  change (Z.min (fexp PyFloat.prec PyFloat.emax 0) (0 - 0)) with (-53).
  change (0 - 0 - -53) with 53. cbv iota.
  rewrite Z.shiftl_mul_pow2 by lia. rewrite div_eucl_multiple by assumption.
  unfold new_location, new_location_even, new_location_odd.
  destruct (Z.even t); reflexivity.
Qed.

(** [t / t] is [1.0]. *)
Lemma int_truediv_same (t : Z) :
  0 < t -> PyFloat.int_truediv t t = Returned (PyFloat.of_int 1).
Proof.
  intros Ht. unfold PyFloat.int_truediv, PyFloat.div_pos.
  destruct (Z.eqb_spec t 0); [lia |].
  replace (Z.abs t) with t by lia. rewrite (div_core_same t Ht).
  destruct (t <? 0); reflexivity.
Qed.

Lemma percentage_none (total : Z) :
  0 < total -> percentage 0 total = Returned (JFloat (S754_zero false)).
Proof.
  intros Ht. unfold percentage, PyFloat.int_truediv.
  destruct (Z.gtb_spec total 0); [| lia].
  destruct (Z.eqb_spec total 0); [lia |].
  destruct (Z.ltb_spec total 0); [lia |]. reflexivity.
Qed.

Lemma percentage_all (total : Z) :
  0 < total -> percentage total total = Returned (JFloat (PyFloat.of_int 100)).
Proof.
  intros Ht. unfold percentage.
  destruct (Z.gtb_spec total 0); [| lia].
  rewrite (int_truediv_same total Ht). reflexivity.
Qed.

(** X8. On a dataset that is not empty, [count_by_emotion] reports the
    float [0.0] as the percentage of an emotion no record carries and the
    float [100.0] for an emotion every record carries; only on an empty
    dataset is the percentage the integer [0]. *)
Theorem count_by_emotion_percentage_ends (E : env) (e : EmotionType) (w w' : world)
    (dataset : table) :
  _load_dataset E w = (Returned dataset, w') ->
  let total := Z.of_nat (List.length (rows dataset)) in
  let count := count_of (value e) (rows dataset) in
  let result pct :=
    (Returned (JObject [("emotion", JString (value e)); ("count", JInt count);
                        ("total", JInt total); ("percentage", pct)]), w') in
  (rows dataset = [] ->
   count_by_emotion E {| CountByEmotionInput.emotion := e |} w = result (JInt 0))
  /\ (rows dataset <> [] -> count = 0 ->
      count_by_emotion E {| CountByEmotionInput.emotion := e |} w
      = result (JFloat (S754_zero false)))
  /\ (rows dataset <> [] -> count = total ->
      count_by_emotion E {| CountByEmotionInput.emotion := e |} w
      = result (JFloat (PyFloat.of_int 100))).
Proof.
  intros Hload total count result.
  destruct (count_by_emotion_loaded E e w w' dataset Hload) as (pct & Hres & Hpct).
  fold count in Hres, Hpct. unfold len_dataset in Hpct. fold total in Hpct.
  assert (Hpos : rows dataset <> [] -> 0 < total).
  { unfold total. destruct (rows dataset); [congruence | cbn; lia]. }
  rewrite Hres. unfold count_payload, result, len_dataset. fold total count.
  split; [| split].
  - intros Hempty. unfold is_percentage, total in Hpct. rewrite Hempty in Hpct.
    cbn in Hpct. now rewrite Hpct.
  - intros Hne Hzero. rewrite Hzero in Hpct.
    now rewrite (is_percentage_unique _ _ _ _ Hpct
                   (percentage_is _ _ _ (percentage_none total (Hpos Hne)))).
  - intros Hne Hall. rewrite Hall in Hpct.
    now rewrite (is_percentage_unique _ _ _ _ Hpct
                   (percentage_is _ _ _ (percentage_all total (Hpos Hne)))).
Qed.

Lemma count_by_emotion_percentage_ends_witness :
  count_by_emotion tiny_env {| CountByEmotionInput.emotion := FEAR |} init_world
  = (Returned (JObject [("emotion", JString "fear"); ("count", JInt 0);
                        ("total", JInt 4);
                        ("percentage", JFloat (S754_zero false))]), tiny_loaded).
Proof.
  destruct (count_by_emotion_percentage_ends tiny_env FEAR init_world tiny_loaded
              tiny_table eq_refl) as (_ & Hnone & _).
  apply Hnone; [discriminate | reflexivity].
Defined.

(** ** What a tool changes *)

Lemma world_after_tool (E : env) (w : world) :
  (forall params, snd (count_by_emotion E params w) = snd (_load_dataset E w))
  /\ (forall params, snd (search_text E params w) = snd (_load_dataset E w))
  /\ snd (analyze_emotion_distribution E w) = snd (_load_dataset E w)
  /\ (forall params,
        DATASET (snd (get_sample E params w)) = DATASET (snd (_load_dataset E w))
        /\ loads (snd (get_sample E params w)) = loads (snd (_load_dataset E w))
        /\ (draws (snd (_load_dataset E w)) <= draws (snd (get_sample E params w)))%nat)
  /\ (forall h, DATASET w = Some h -> snd (_load_dataset E w) = w)
  /\ (loads (snd (_load_dataset E w)) <= S (loads w))%nat.
Proof.
  split; [| split; [| split; [| split; [| split]]]].
  - intros params.
    unfold count_by_emotion, try_except, count_by_emotion_body, bind, lift, ret.
    destruct (_load_dataset E w) as [[dataset | e] w1]; [| reflexivity].
    destruct (find_label_id _ _); [| reflexivity].
    destruct (percentage _ _); reflexivity.
  - intros params.
    unfold search_text, try_except, search_text_body, bind, lift, ret.
    destruct (_load_dataset E w) as [[dataset | e] w1]; [| reflexivity].
    destruct (search_loop _ _ _ _); reflexivity.
  - unfold analyze_emotion_distribution, try_except,
      analyze_emotion_distribution_body, bind, lift, ret.
    destruct (_load_dataset E w) as [[dataset | e] w1]; [| reflexivity].
    destruct (tally _ _); [| reflexivity].
    destruct (build_distribution _ _ _); reflexivity.
  - intros params.
    unfold get_sample, try_except, get_sample_body, bind, lift, ret.
    destruct (_load_dataset E w) as [[dataset | e] w1]; [| cbn; auto].
    unfold random_sample.
    destruct ((Z.min (GetSampleInput.n params) (len_dataset dataset) <? 0)
              || (len_dataset dataset <? Z.min (GetSampleInput.n params) (len_dataset dataset)));
      [cbn; auto |].
    destruct (len_dataset dataset <=? setsize _).
    + destruct (collect_samples _ _ _); cbn; repeat split; lia.
    + destruct (reject_loop E _ _ [] (draws w1)) as [[result pos] |] eqn:Hloop;
        [| cbn; auto].
      apply reject_loop_pos in Hloop.
      destruct (collect_samples _ _ _); cbn; repeat split; lia.
  - intros h Hh. now rewrite (load_cached E w h Hh).
  - unfold _load_dataset. destruct (DATASET w); [cbn; lia |].
    destruct (source E (loads w)); cbn; lia.
Qed.

(** X9. A tool changes nothing but what loading changes, and [get_sample]
    the count of random draws: [count_by_emotion], [search_text] and
    [analyze_emotion_distribution] leave the world exactly as
    [_load_dataset] alone leaves it, and [get_sample] leaves the cache and
    the number of loads as [_load_dataset] leaves them.  So a populated
    cache is never cleared or replaced, and a call makes at most one call of
    [load_dataset]. *)
Theorem tools_change_only_what_loading_changes (E : env) (w : world) :
  (forall params, snd (count_by_emotion E params w) = snd (_load_dataset E w))
  /\ (forall params, snd (search_text E params w) = snd (_load_dataset E w))
  /\ snd (analyze_emotion_distribution E w) = snd (_load_dataset E w)
  /\ (forall params,
        DATASET (snd (get_sample E params w)) = DATASET (snd (_load_dataset E w))
        /\ loads (snd (get_sample E params w)) = loads (snd (_load_dataset E w))
        /\ (draws (snd (_load_dataset E w)) <= draws (snd (get_sample E params w)))%nat)
  /\ (forall h, DATASET w = Some h -> snd (_load_dataset E w) = w)
  /\ (loads (snd (_load_dataset E w)) <= S (loads w))%nat.
Proof. exact (world_after_tool E w). Qed.

(** X10. A failed load is not remembered: when the source fails on one call
    and answers on the next, the first call of [count_by_emotion] returns
    the error payload with the source's message and the second loads the
    dataset and answers from it. *)
Theorem tool_retries_after_failed_load (E : env) (e : EmotionType) (w : world)
    (msg : string) (rs : list record) :
  DATASET w = None ->
  source E (loads w) = LoadFailed msg ->
  source E (S (loads w)) = Loaded rs ->
  exists w1 w2 pct,
    count_by_emotion E {| CountByEmotionInput.emotion := e |} w
    = (Returned (error_payload ("Failed to count by emotion: " ++ msg)), w1)
    /\ count_by_emotion E {| CountByEmotionInput.emotion := e |} w1
       = (Returned (JObject [("emotion", JString (value e));
                             ("count", JInt (count_of (value e) rs));
                             ("total", JInt (Z.of_nat (List.length rs)));
                             ("percentage", pct)]), w2)
    /\ DATASET w2 = Some {| oid := S (loads w); rows := rs |}
    /\ loads w2 = S (S (loads w)).
Proof.
  intros Hd Hfail Hok.
  set (w1 := {| DATASET := None; loads := S (loads w); draws := draws w |}).
  set (h := {| oid := S (loads w); rows := rs |}).
  set (w2 := {| DATASET := Some h; loads := S (S (loads w)); draws := draws w |}).
  assert (Hload2 : _load_dataset E w1 = (Returned h, w2))
    by (unfold _load_dataset; cbn [DATASET loads draws w1]; now rewrite Hok).
  destruct (count_by_emotion_loaded E e w1 w2 h Hload2) as (pct & Hres & _).
  exists w1, w2, pct. split; [| split; [exact Hres | split; reflexivity]].
  unfold count_by_emotion, try_except, count_by_emotion_body, bind.
  now rewrite (load_failure E w msg Hd Hfail).
Qed.

Lemma tool_retries_after_failed_load_witness :
  exists w1 w2 pct,
    count_by_emotion
      {| source := fun k => match k with O => LoadFailed "offline" | _ => Loaded tiny_rows end;
         entropy := fun k => k;
     patience := fun _ n => n; fair := counter_fair |}
      {| CountByEmotionInput.emotion := JOY |} init_world
    = (Returned (error_payload "Failed to count by emotion: offline"), w1)
    /\ count_by_emotion
         {| source := fun k => match k with O => LoadFailed "offline" | _ => Loaded tiny_rows end;
            entropy := fun k => k;
     patience := fun _ n => n; fair := counter_fair |}
         {| CountByEmotionInput.emotion := JOY |} w1
       = (Returned (JObject [("emotion", JString "joy");
                             ("count", JInt 2);
                             ("total", JInt 4);
                             ("percentage", pct)]), w2)
    /\ DATASET w2 = Some {| oid := 1; rows := tiny_rows |}
    /\ loads w2 = 2%nat.
Proof.
  exact (tool_retries_after_failed_load
           {| source := fun k => match k with O => LoadFailed "offline" | _ => Loaded tiny_rows end;
              entropy := fun k => k;
     patience := fun _ n => n; fair := counter_fair |}
           JOY init_world "offline" tiny_rows eq_refl eq_refl eq_refl).
Defined.

Lemma tools_change_only_what_loading_changes_witness :
  snd (_load_dataset tiny_env tiny_loaded) = tiny_loaded.
Proof.
  destruct (tools_change_only_what_loading_changes tiny_env tiny_loaded)
    as (_ & _ & _ & _ & Hcached & _).
  exact (Hcached tiny_table eq_refl).
Defined.

(** ** [get_sample] on the whole dataset *)

Lemma drawn_entry_at (dataset : table) (idx : nat) (j : json) :
  drawn dataset idx j -> j = entry_at (rows dataset) idx.
Proof.
  intros (r & name & Hr & Hname & ->). unfold entry_at, entry, sample_entry, emotion_of, resolve.
  now rewrite Hr, Hname.
Qed.

Lemma drawn_all_entry_at (dataset : table) (indices : list nat) (samples : list json) :
  Forall2 (drawn dataset) indices samples ->
  samples = map (entry_at (rows dataset)) indices.
Proof.
  induction 1 as [| idx j indices samples Hd _ IH]; [reflexivity |].
  cbn [map]. now rewrite (drawn_entry_at _ _ _ Hd), IH.
Qed.

Lemma map_entry_at_seq (rs : list record) : forall pre,
  map (entry_at (pre ++ rs)) (seq (List.length pre) (List.length rs)) = map entry rs.
Proof.
  induction rs as [| r rs IH]; intros pre; [reflexivity |].
  cbn [List.length seq map]. f_equal.
  - unfold entry_at. rewrite nth_error_app2 by lia. now rewrite Nat.sub_diag.
  - specialize (IH (pre ++ [r])%list). rewrite <- app_assoc in IH. cbn [app] in IH.
    rewrite length_app in IH. cbn [List.length] in IH.
    now rewrite Nat.add_1_r in IH.
Qed.

Lemma full_draw_permutation (size : nat) (indices : list nat) :
  NoDup indices ->
  Forall (fun i => (i < size)%nat) indices ->
  List.length indices = size ->
  Permutation indices (seq 0 size).
Proof.
  intros Hnodup Hbound Hlen. apply NoDup_Permutation_bis; [assumption | |].
  - rewrite length_seq. lia.
  - intros i Hi. rewrite Forall_forall in Hbound. apply in_seq.
    specialize (Hbound i Hi). lia.
Qed.

(** X11. Asked for at least as many samples as the dataset holds,
    [get_sample] returns the whole dataset: every record's entry exactly
    once, in some order. *)
Theorem get_sample_returns_whole_dataset (E : env) (params : GetSampleInput.t)
    (w w' : world) (dataset : table) :
  Z.of_nat (List.length (rows dataset)) <= GetSampleInput.n params ->
  _load_dataset E w = (Returned dataset, w') ->
  valid_rows (rows dataset) ->
  exists samples w'',
    get_sample E params w = (Returned (JArray samples), w'')
    /\ Permutation samples (map entry (rows dataset)).
Proof.
  intros Hn Hload Hvalid.
  set (total := Z.of_nat (List.length (rows dataset))) in *.
  destruct (random_sample_spec E total (Z.min (GetSampleInput.n params) total) w'
              ltac:(unfold total; lia))
    as (indices & w'' & Hsample & _ & _ & Hlen & Hnodup & Hbound).
  assert (Hbound' : Forall (fun i => (i < List.length (rows dataset))%nat) indices).
  { eapply Forall_impl; [| exact Hbound]. unfold total. cbn beta. intros i Hi. lia. }
  destruct (collect_samples_spec dataset Hvalid indices [] Hbound') as (samples & Hcollect & Hall).
  exists samples, w''. split.
  - unfold get_sample, try_except, get_sample_body, bind, lift, ret.
    rewrite Hload. unfold len_dataset. fold total.
    rewrite Hsample, Hcollect. reflexivity.
  - rewrite (drawn_all_entry_at _ _ _ Hall).
    rewrite <- (map_entry_at_seq (rows dataset) []). cbn [app List.length].
    apply Permutation_map, full_draw_permutation; [assumption | assumption |].
    unfold total in Hlen. lia.
Qed.

Lemma get_sample_returns_whole_dataset_witness :
  exists samples w'',
    get_sample tiny_env {| GetSampleInput.n := 100 |} init_world
    = (Returned (JArray samples), w'')
    /\ Permutation samples (map entry tiny_rows).
Proof.
  apply (get_sample_returns_whole_dataset tiny_env {| GetSampleInput.n := 100 |}
           init_world tiny_loaded tiny_table).
  - cbn. lia.
  - reflexivity.
  - unfold valid_rows, tiny_table, tiny_rows, rows.
    repeat (apply Forall_cons; [unfold valid_label; cbn; lia |]). apply Forall_nil.
Defined.

(** ** The stripped query *)

Section Stripping.
Variable is_space : ascii -> bool.

Lemma lstrip_clean (cs : list ascii) : clean is_space (PyStr.lstrip_chars is_space cs).
Proof.
  induction cs as [| c cs IH]; cbn; [exact I |].
  destruct (is_space c) eqn:Hc; [exact IH | exact Hc].
Qed.

Lemma lstrip_of_clean (cs : list ascii) :
  clean is_space cs -> PyStr.lstrip_chars is_space cs = cs.
Proof. destruct cs as [| c cs]; cbn; [reflexivity | now intros ->]. Qed.

Lemma lstrip_suffix (cs : list ascii) :
  exists pre, cs = (pre ++ PyStr.lstrip_chars is_space cs)%list.
Proof.
  induction cs as [| c cs (pre & IH)]; [now exists [] |].
  cbn. destruct (is_space c).
  - exists (c :: pre). cbn. now rewrite <- IH.
  - now exists [].
Qed.

Lemma clean_prefix (a b : list ascii) : clean is_space (a ++ b) -> clean is_space a.
Proof. destruct a; cbn; auto. Qed.

(** Stripping a stripped string changes nothing. *)
Lemma strip_idempotent (s : string) :
  PyStr.strip is_space (PyStr.strip is_space s) = PyStr.strip is_space s.
Proof.
  unfold PyStr.strip. rewrite list_ascii_of_string_of_list_ascii.
  set (t := PyStr.lstrip_chars is_space (list_ascii_of_string s)).
  set (u := PyStr.lstrip_chars is_space (rev t)).
  assert (Hu : clean is_space u) by apply lstrip_clean.
  assert (Hru : clean is_space (rev u)).
  { destruct (lstrip_suffix (rev t)) as (pre & Hpre). fold u in Hpre.
    apply (f_equal (@rev ascii)) in Hpre. rewrite rev_involutive, rev_app_distr in Hpre.
    apply (clean_prefix (rev u) (rev pre)). rewrite <- Hpre. apply lstrip_clean. }
  rewrite (lstrip_of_clean _ Hru), rev_involutive, (lstrip_of_clean _ Hu).
  reflexivity.
Qed.

(** X12. The query a [SearchTextInput] holds is already stripped: building
    the model again from the fields of a built model returns the same
    model. *)
Theorem search_input_validation_idempotent (q : string) (l : Z) (params : SearchTextInput.t) :
  SearchTextInput.make is_space q l = Returned params ->
  SearchTextInput.query params = PyStr.strip is_space q
  /\ PyStr.strip is_space (SearchTextInput.query params) = SearchTextInput.query params
  /\ SearchTextInput.make is_space (SearchTextInput.query params)
       (SearchTextInput.limit params)
     = Returned params.
Proof.
  unfold SearchTextInput.make.
  destruct ((1 <=? PyStr.len (PyStr.strip is_space q))
            && (PyStr.len (PyStr.strip is_space q) <=? 200)) eqn:Hq;
    [| discriminate].
  destruct ((1 <=? l) && (l <=? 100)) eqn:Hl; [| discriminate].
  cbn [app]. intros [= <-]. cbn [SearchTextInput.query SearchTextInput.limit].
  rewrite strip_idempotent, Hq, Hl. auto.
Qed.
End Stripping.

Lemma search_input_validation_idempotent_witness :
  SearchTextInput.query
    {| SearchTextInput.query := "happy"; SearchTextInput.limit := 10 |}
  = PyStr.strip PyStr.unicode_space "  happy "
  /\ PyStr.strip PyStr.unicode_space "happy" = "happy"
  /\ SearchTextInput.make PyStr.unicode_space "happy" 10
     = Returned {| SearchTextInput.query := "happy"; SearchTextInput.limit := 10 |}.
Proof.
  exact (search_input_validation_idempotent PyStr.unicode_space "  happy " 10
           {| SearchTextInput.query := "happy"; SearchTextInput.limit := 10 |} eq_refl).
Defined.

(** * The test script *)

Lemma strip_happy (is_space : ascii -> bool) :
  is_space "h"%char = false -> is_space "y"%char = false ->
  PyStr.strip is_space "happy" = "happy".
Proof.
  intros Hh Hy. unfold PyStr.strip. cbn. rewrite Hh. cbn. rewrite Hy. reflexivity.
Qed.

Lemma call_search_happy (is_space : ascii -> bool) (E : env) (w : world) :
  is_space "h"%char = false -> is_space "y"%char = false ->
  call_search_text is_space E "happy" 10 w
  = search_text E {| SearchTextInput.query := "happy"; SearchTextInput.limit := 10 |} w.
Proof.
  intros Hh Hy. unfold call_search_text, bind, lift, SearchTextInput.make.
  now rewrite (strip_happy is_space Hh Hy).
Qed.

Lemma cache_step_loaded (E : env) (w w' : world) (h : table) :
  cache_step E w w' -> DATASET w = Some h ->
  DATASET w' = Some h /\ loads w' = loads w.
Proof.
  intros [Hd Hl] Hh. rewrite (load_cached E w h Hh) in Hd, Hl. cbn in Hd, Hl.
  split; congruence.
Qed.

Lemma cache_step_first (E : env) (w w' : world) (rs : list record) :
  cache_step E w w' -> DATASET w = None -> source E (loads w) = Loaded rs ->
  DATASET w' = Some {| oid := loads w; rows := rs |} /\ loads w' = S (loads w).
Proof.
  intros [Hd Hl] Hnone Hs. unfold _load_dataset in Hd, Hl.
  rewrite Hnone, Hs in Hd, Hl. now cbn in Hd, Hl.
Qed.

Lemma cache_step_failed (E : env) (w w' : world) (msg : string) :
  cache_step E w w' -> DATASET w = None -> source E (loads w) = LoadFailed msg ->
  DATASET w' = None /\ loads w' = S (loads w).
Proof.
  intros [Hd Hl] Hnone Hs. unfold _load_dataset in Hd, Hl.
  rewrite Hnone, Hs in Hd, Hl. now cbn in Hd, Hl.
Qed.

(** Each tool returns, in a world that differs from the one it was called
    in as after a call of [_load_dataset]. *)
Lemma tool_steps (E : env) (w : world) :
  (forall params, exists j w',
      get_sample E params w = (Returned j, w') /\ cache_step E w w')
  /\ (forall params, exists j w',
      count_by_emotion E params w = (Returned j, w') /\ cache_step E w w')
  /\ (forall params, exists j w',
      search_text E params w = (Returned j, w') /\ cache_step E w w')
  /\ (exists j w',
      analyze_emotion_distribution E w = (Returned j, w') /\ cache_step E w w').
Proof.
  destruct (world_after_tool E w) as (Hc & Hs & Ha & Hg & _).
  unfold cache_step. split; [| split; [| split]].
  - intros params. destruct (caught (get_sample_body E params) "Failed to get samples: " w)
      as (j & w' & Hres & _).
    exists j, w'. split; [exact Hres |].
    specialize (Hg params). unfold get_sample in Hg. rewrite Hres in Hg. cbn [snd] in Hg.
    tauto.
  - intros params.
    destruct (caught (count_by_emotion_body E params) "Failed to count by emotion: " w)
      as (j & w' & Hres & _).
    exists j, w'. split; [exact Hres |].
    specialize (Hc params). unfold count_by_emotion in Hc. rewrite Hres in Hc.
    cbn [snd] in Hc. now subst w'.
  - intros params.
    destruct (caught (search_text_body E params) "Failed to search text: " w)
      as (j & w' & Hres & _).
    exists j, w'. split; [exact Hres |].
    specialize (Hs params). unfold search_text in Hs. rewrite Hres in Hs.
    cbn [snd] in Hs. now subst w'.
  - destruct (caught (analyze_emotion_distribution_body E)
                "Failed to analyze distribution: " w) as (j & w' & Hres & _).
    exists j, w'. split; [exact Hres |].
    unfold analyze_emotion_distribution in Ha. rewrite Hres in Ha.
    cbn [snd] in Ha. now subst w'.
Qed.

(** The run of [test_all_tools]: the four calls it makes, in order, and
    what it prints and returns. *)
Lemma test_all_tools_run (is_space : ascii -> bool) (E : env) (w : world)
    (out : list printed) :
  is_space "h"%char = false -> is_space "y"%char = false ->
  exists j1 w1 j2 w2 j3 w3 j4 w4,
    (get_sample E {| GetSampleInput.n := 3 |} w = (Returned j1, w1)
     /\ cache_step E w w1)
    /\ (count_by_emotion E {| CountByEmotionInput.emotion := JOY |} w1 = (Returned j2, w2)
        /\ cache_step E w1 w2)
    /\ (search_text E {| SearchTextInput.query := "happy"; SearchTextInput.limit := 10 |} w2
        = (Returned j3, w3)
        /\ cache_step E w2 w3)
    /\ (analyze_emotion_distribution E w3 = (Returned j4, w4)
        /\ cache_step E w3 w4)
    /\ test_all_tools is_space E w out = (true, w4, (out ++ report j1 j2 j3 j4)%list).
Proof.
  intros Hh Hy.
  destruct (tool_steps E w) as (Hg & _).
  destruct (Hg {| GetSampleInput.n := 3 |}) as (j1 & w1 & H1 & S1).
  destruct (tool_steps E w1) as (_ & Hc & _).
  destruct (Hc {| CountByEmotionInput.emotion := JOY |}) as (j2 & w2 & H2 & S2).
  destruct (tool_steps E w2) as (_ & _ & Hs & _).
  destruct (Hs {| SearchTextInput.query := "happy"; SearchTextInput.limit := 10 |})
    as (j3 & w3 & H3 & S3).
  destruct (tool_steps E w3) as (_ & _ & _ & (j4 & w4 & H4 & S4)).
  exists j1, w1, j2, w2, j3, w3, j4, w4.
  repeat (split; [split; assumption |]).
  unfold test_all_tools, test_block.
  change (call_get_sample E 3 w) with (get_sample E {| GetSampleInput.n := 3 |} w).
  rewrite H1. cbv beta iota zeta. cbn [negb].
  change (call_count_by_emotion E "joy" w1)
    with (count_by_emotion E {| CountByEmotionInput.emotion := JOY |} w1).
  rewrite H2. cbv beta iota zeta. cbn [negb].
  rewrite (call_search_happy is_space E w2 Hh Hy), H3. cbv beta iota zeta. cbn [negb].
  rewrite H4. cbv beta iota zeta. cbn [negb].
  unfold report, passed_block. repeat rewrite <- app_assoc. reflexivity.
Qed.



Lemma tool_on_failed_load (E : env) (w : world) (msg : string) :
  DATASET w = None -> source E (loads w) = LoadFailed msg ->
  (forall params, get_sample E params w
     = (Returned (error_payload ("Failed to get samples: " ++ msg)), failed_world w))
  /\ (forall params, count_by_emotion E params w
     = (Returned (error_payload ("Failed to count by emotion: " ++ msg)), failed_world w))
  /\ (forall params, search_text E params w
     = (Returned (error_payload ("Failed to search text: " ++ msg)), failed_world w))
  /\ analyze_emotion_distribution E w
     = (Returned (error_payload ("Failed to analyze distribution: " ++ msg)), failed_world w).
Proof.
  intros Hd Hs. pose proof (load_failure E w msg Hd Hs) as Hload.
  repeat split; intros;
    unfold get_sample, count_by_emotion, search_text, analyze_emotion_distribution,
      try_except, get_sample_body, count_by_emotion_body, search_text_body,
      analyze_emotion_distribution_body, bind;
    rewrite Hload; reflexivity.
Qed.

(** X14. [test_all_tools] reports success also when the dataset cannot be
    loaded: every tool returns its error payload, the script prints the four
    payloads each followed by the pass line, returns [True], and has asked
    the source four times. *)
Theorem test_all_tools_passes_offline (is_space : ascii -> bool) (E : env) (w : world)
    (out : list printed) (msg : string) :
  is_space "h"%char = false -> is_space "y"%char = false ->
  DATASET w = None ->
  (forall k, source E k = LoadFailed msg) ->
  test_all_tools is_space E w out
  = (true,
     failed_world (failed_world (failed_world (failed_world w))),
     (out ++ report (error_payload ("Failed to get samples: " ++ msg))
                    (error_payload ("Failed to count by emotion: " ++ msg))
                    (error_payload ("Failed to search text: " ++ msg))
                    (error_payload ("Failed to analyze distribution: " ++ msg)))%list).
Proof.
  intros Hh Hy Hd Hsrc.
  destruct (test_all_tools_run is_space E w out Hh Hy)
    as (j1 & w1 & j2 & w2 & j3 & w3 & j4 & w4
        & (H1 & _) & (H2 & _) & (H3 & _) & (H4 & _) & Hrun).
  destruct (tool_on_failed_load E w msg Hd (Hsrc _)) as (Hg & _).
  rewrite Hg in H1. injection H1 as <- <-.
  destruct (tool_on_failed_load E (failed_world w) msg eq_refl (Hsrc _)) as (_ & Hc & _).
  rewrite Hc in H2. injection H2 as <- <-.
  destruct (tool_on_failed_load E (failed_world (failed_world w)) msg eq_refl (Hsrc _))
    as (_ & _ & Hs & _).
  rewrite Hs in H3. injection H3 as <- <-.
  destruct (tool_on_failed_load E (failed_world (failed_world (failed_world w))) msg
              eq_refl (Hsrc _)) as (_ & _ & _ & Ha).
  rewrite Ha in H4. injection H4 as <- <-.
  exact Hrun.
Qed.

Lemma test_all_tools_passes_offline_witness :
  test_all_tools PyStr.unicode_space offline_env init_world []
  = (true,
     {| DATASET := None; loads := 4; draws := 0 |},
     ([] ++ report (error_payload "Failed to get samples: offline")
                   (error_payload "Failed to count by emotion: offline")
                   (error_payload "Failed to search text: offline")
                   (error_payload "Failed to analyze distribution: offline"))%list).
Proof.
  exact (test_all_tools_passes_offline PyStr.unicode_space offline_env init_world []
           "offline" eq_refl eq_refl eq_refl (fun _ => eq_refl)).
Defined.

Lemma call_count_steps (E : env) (emotion : string) (w : world) (h : table) :
  DATASET w = Some h ->
  DATASET (snd (call_count_by_emotion E emotion w)) = Some h
  /\ loads (snd (call_count_by_emotion E emotion w)) = loads w.
Proof.
  intros Hh. unfold call_count_by_emotion, bind, lift.
  destruct (CountByEmotionInput.make emotion) as [params | e]; [| now cbn].
  destruct (tool_steps E w) as (_ & Hc & _).
  destruct (Hc params) as (j & w' & -> & Hstep). cbn [snd].
  exact (cache_step_loaded E w w' h Hstep Hh).
Qed.

Lemma emotions_loop_keeps_cache (E : env) (h : table) : forall emotions w out,
  DATASET w = Some h ->
  DATASET (fst (emotions_loop E emotions w out)) = Some h
  /\ loads (fst (emotions_loop E emotions w out)) = loads w.
Proof.
  induction emotions as [| emotion rest IH]; intros w out Hh; [now cbn |].
  cbn [emotions_loop].
  destruct (call_count_steps E emotion w h Hh) as (Hd & Hl).
  destruct (call_count_by_emotion E emotion w) as [[j | e] w1]; cbn [snd] in Hd, Hl;
    match goal with
    | |- context [emotions_loop E rest w1 ?o] =>
        destruct (IH w1 o Hd) as (Hd' & Hl'); split; congruence
    end.
Qed.




(** X16. When the source answers, a whole run of the script, the four tests
    and with [--all] the six further calls, loads the dataset exactly once:
    the first tool loads it and every later call uses the cached table. *)
Theorem script_loads_dataset_once (is_space : ascii -> bool) (E : env)
    (argv : list string) (w : world) (out : list printed) (rs : list record) :
  is_space "h"%char = false -> is_space "y"%char = false ->
  DATASET w = None ->
  source E (loads w) = Loaded rs ->
  exists w' out',
    main is_space E argv w out = (0, w', out')
    /\ DATASET w' = Some {| oid := loads w; rows := rs |}
    /\ loads w' = S (loads w).
Proof.
  intros Hh Hy Hd Hs.
  destruct (test_all_tools_run is_space E w out Hh Hy)
    as (j1 & w1 & j2 & w2 & j3 & w3 & j4 & w4
        & (_ & S1) & (_ & S2) & (_ & S3) & (_ & S4) & Hrun).
  destruct (cache_step_first E w w1 rs S1 Hd Hs) as (D1 & L1).
  destruct (cache_step_loaded E w1 w2 _ S2 D1) as (D2 & L2).
  destruct (cache_step_loaded E w2 w3 _ S3 D2) as (D3 & L3).
  destruct (cache_step_loaded E w3 w4 _ S4 D3) as (D4 & L4).
  unfold main. rewrite Hrun. cbn [andb].
  destruct (existsb (String.eqb "--all") argv).
  - unfold test_individual_emotions.
    destruct (emotions_loop_keeps_cache E _
                ["sadness"; "joy"; "love"; "anger"; "fear"; "surprise"] w4
                ((out ++ report j1 j2 j3 j4)
                 ++ [Text (newline ++ rule); Text "Testing all emotions"; Text rule])%list
                D4) as (D5 & L5).
    destruct (emotions_loop E _ w4 _) as [w5 out5]. cbn [fst] in D5, L5.
    exists w5, out5. repeat split; congruence.
  - exists w4, (out ++ report j1 j2 j3 j4)%list. repeat split; congruence.
Qed.

Lemma script_loads_dataset_once_witness :
  exists w' out',
    main PyStr.unicode_space tiny_env ["test_tools.py"; "--all"] init_world []
    = (0, w', out')
    /\ DATASET w' = Some {| oid := 0; rows := tiny_rows |}
    /\ loads w' = 1%nat.
Proof.
  exact (script_loads_dataset_once PyStr.unicode_space tiny_env ["test_tools.py"; "--all"]
           init_world [] tiny_rows eq_refl eq_refl eq_refl eq_refl).
Defined.

(** X17. With the dataset available, [test_individual_emotions] prints, for
    sadness, joy, love, anger, fear and surprise in this order, the heading
    of the emotion and the result of [count_by_emotion] for it, and never
    the error line. *)
Theorem test_individual_emotions_prints_six_counts (E : env) (w w' : world)
    (dataset : table) (out : list printed) :
  _load_dataset E w = (Returned dataset, w') ->
  exists p0 p1 p2 p3 p4 p5,
    test_individual_emotions E w out
    = (w',
       (out
        ++ [Text (newline ++ rule); Text "Testing all emotions"; Text rule]
        ++ [Heading "sadness"; Result (count_payload SADNESS dataset p0);
            Heading "joy"; Result (count_payload JOY dataset p1);
            Heading "love"; Result (count_payload LOVE dataset p2);
            Heading "anger"; Result (count_payload ANGER dataset p3);
            Heading "fear"; Result (count_payload FEAR dataset p4);
            Heading "surprise"; Result (count_payload SURPRISE dataset p5)])%list).
Proof.
  intros Hload. pose proof (load_again E w w' dataset Hload) as Hagain.
  destruct (count_by_emotion_loaded E SADNESS w w' dataset Hload) as (p0 & H0 & _).
  destruct (count_by_emotion_loaded E JOY w' w' dataset Hagain) as (p1 & H1 & _).
  destruct (count_by_emotion_loaded E LOVE w' w' dataset Hagain) as (p2 & H2 & _).
  destruct (count_by_emotion_loaded E ANGER w' w' dataset Hagain) as (p3 & H3 & _).
  destruct (count_by_emotion_loaded E FEAR w' w' dataset Hagain) as (p4 & H4 & _).
  destruct (count_by_emotion_loaded E SURPRISE w' w' dataset Hagain) as (p5 & H5 & _).
  exists p0, p1, p2, p3, p4, p5.
  unfold test_individual_emotions. cbn [emotions_loop].
  change (call_count_by_emotion E "sadness" w)
    with (count_by_emotion E {| CountByEmotionInput.emotion := SADNESS |} w).
  rewrite H0.
  change (call_count_by_emotion E "joy" w')
    with (count_by_emotion E {| CountByEmotionInput.emotion := JOY |} w').
  rewrite H1.
  change (call_count_by_emotion E "love" w')
    with (count_by_emotion E {| CountByEmotionInput.emotion := LOVE |} w').
  rewrite H2.
  change (call_count_by_emotion E "anger" w')
    with (count_by_emotion E {| CountByEmotionInput.emotion := ANGER |} w').
  rewrite H3.
  change (call_count_by_emotion E "fear" w')
    with (count_by_emotion E {| CountByEmotionInput.emotion := FEAR |} w').
  rewrite H4.
  change (call_count_by_emotion E "surprise" w')
    with (count_by_emotion E {| CountByEmotionInput.emotion := SURPRISE |} w').
  rewrite H5.
  repeat rewrite <- app_assoc. reflexivity.
Qed.

Lemma test_individual_emotions_prints_six_counts_witness :
  exists p0 p1 p2 p3 p4 p5,
    test_individual_emotions tiny_env init_world []
    = (tiny_loaded,
       ([]
        ++ [Text (newline ++ rule); Text "Testing all emotions"; Text rule]
        ++ [Heading "sadness"; Result (count_payload SADNESS tiny_table p0);
            Heading "joy"; Result (count_payload JOY tiny_table p1);
            Heading "love"; Result (count_payload LOVE tiny_table p2);
            Heading "anger"; Result (count_payload ANGER tiny_table p3);
            Heading "fear"; Result (count_payload FEAR tiny_table p4);
            Heading "surprise"; Result (count_payload SURPRISE tiny_table p5)])%list).
Proof.
  exact (test_individual_emotions_prints_six_counts tiny_env init_world tiny_loaded
           tiny_table [] eq_refl).
Defined.

(** * [get_sample] and unknown labels *)

(** The collection raises at the first drawn record whose label is
    unknown. *)
Lemma collect_samples_unknown (dataset : table) : forall indices acc,
  Forall (fun i => (i < List.length (rows dataset))%nat) indices ->
  (exists idx r, In idx indices /\ nth_error (rows dataset) idx = Some r
                 /\ ~ valid_label (label r)) ->
  exists r,
    In r (rows dataset) /\ ~ valid_label (label r)
    /\ collect_samples dataset indices acc = Raised (KeyError (PyStr.of_int (label r))).
Proof.
  induction indices as [| idx rest IH]; intros acc Hbound (bad & rb & Hin & Hrb & Hbad).
  - destruct Hin.
  - inversion Hbound as [| ? ? Hlt Hrest]; subst.
    destruct (nth_error (rows dataset) idx) as [r |] eqn:Hr;
      [| apply nth_error_Some in Hlt; contradiction].
    cbn [collect_samples]. unfold dataset_getitem. rewrite Hr. cbn [obind].
    destruct (valid_label_dec (label r)) as [Hvalid | Hinvalid].
    + rewrite (valid_label_resolves _ Hvalid). cbn [obind].
      apply IH; [assumption |].
      exists bad, rb. repeat split; auto.
      destruct Hin as [<- | Hin]; [| assumption].
      rewrite Hr in Hrb. injection Hrb as <-. contradiction.
    + exists r. repeat split; auto.
      * eapply nth_error_In. exact Hr.
      * now rewrite (invalid_label_raises _ Hinvalid).
Qed.

(** X18. Asked for at least as many samples as the dataset holds,
    [get_sample] draws every record; if one of them carries a label that is
    no key of the label mapping, the call returns the error payload naming
    such a label and none of the samples. *)
Theorem get_sample_unknown_label (E : env) (params : GetSampleInput.t)
    (w w' : world) (dataset : table) :
  Z.of_nat (List.length (rows dataset)) <= GetSampleInput.n params ->
  _load_dataset E w = (Returned dataset, w') ->
  ~ valid_rows (rows dataset) ->
  exists r w'',
    In r (rows dataset) /\ ~ valid_label (label r)
    /\ get_sample E params w
       = (Returned (error_payload ("Failed to get samples: " ++ PyStr.of_int (label r))),
          w'').
Proof.
  intros Hn Hload Hbad.
  set (total := Z.of_nat (List.length (rows dataset))) in *.
  destruct (random_sample_spec E total (Z.min (GetSampleInput.n params) total) w'
              ltac:(unfold total; lia))
    as (indices & w'' & Hsample & _ & _ & Hlen & Hnodup & Hbound).
  assert (Hbound' : Forall (fun i => (i < List.length (rows dataset))%nat) indices).
  { eapply Forall_impl; [| exact Hbound]. unfold total. cbn beta. intros i Hi. lia. }
  assert (Hperm : Permutation indices (seq 0 (List.length (rows dataset)))).
  { apply full_draw_permutation; [assumption | assumption |]. unfold total in Hlen. lia. }
  assert (Hsome : exists idx r, In idx indices /\ nth_error (rows dataset) idx = Some r
                                /\ ~ valid_label (label r)).
  { apply Exists_Forall_neg in Hbad; [| intros r; destruct (valid_label_dec (label r)); tauto].
    apply Exists_exists in Hbad. destruct Hbad as (r & Hr & Hinvalid).
    apply In_nth_error in Hr. destruct Hr as (idx & Hidx).
    exists idx, r. repeat split; auto.
    apply (Permutation_in idx (Permutation_sym Hperm)), in_seq.
    assert (idx < List.length (rows dataset))%nat
      by (apply nth_error_Some; congruence).
    lia. }
  destruct (collect_samples_unknown dataset indices [] Hbound' Hsome)
    as (r & Hr & Hinvalid & Hcollect).
  exists r, w''. repeat split; auto.
  unfold get_sample, try_except, get_sample_body, bind, lift, ret.
  rewrite Hload. unfold len_dataset. fold total.
  rewrite Hsample, Hcollect. reflexivity.
Qed.

Lemma get_sample_unknown_label_witness :
  exists r w'',
    In r odd_rows /\ ~ valid_label (label r)
    /\ get_sample odd_env {| GetSampleInput.n := 3 |} init_world
       = (Returned (error_payload ("Failed to get samples: " ++ PyStr.of_int (label r))),
          w'').
Proof.
  apply (get_sample_unknown_label odd_env {| GetSampleInput.n := 3 |}
           init_world odd_loaded odd_table).
  - cbn. lia.
  - reflexivity.
  - intros H. unfold valid_rows, odd_table, odd_rows, rows in H.
    inversion H as [| ? ? _ H1]. inversion H1 as [| ? ? H7 _].
    unfold valid_label in H7. cbn in H7. lia.
Defined.
